(** * pysubs2: the subtitle document [SSAFile] and the TMP codec

    A shallow embedding of [pysubs2/ssafile.py] (the document and its
    retiming and style operations) and of [pysubs2/tmp.py] (the TMP
    reader, writer and format probe), with the properties the
    specification states about them.

    Conventions of the embedding:
    - Python [int] is [Z]; [bytes] is [string] (a sequence of 8-bit
      characters); [str] is [string] too, and the two are kept apart by
      the tagged type [pystr] wherever the code can meet both.
    - A method that can raise returns a [result]; a method that mutates
      the document is a function from the document to a result paired
      with the document it leaves behind.
    - [dict] and [OrderedDict] are [gmap]; no property below depends on
      the insertion order.
    - The event list of a document is a list of event values. Where the
      effect of a loop could depend on one event object sitting at two
      indexes ([shift]), the loop is given a second time over a heap of
      shared objects. *)

From Stdlib Require Import ZArith List String Ascii Bool Lia PrimFloat.
From stdpp Require Import base option list strings gmap.

Local Open Scope string_scope.
Local Open Scope list_scope.
Local Open Scope Z_scope.

(** ** Python values and exceptions *)

(** A Python number as the retiming methods receive it. *)
Inductive number :=
| PyInt (z : Z)
| PyFloat (f : float).

(** The texts of the exceptions the modelled code raises itself. *)
Inductive message :=
| Style_not_found (old_name : string)
    (* "Style %r not found" % old_name *)
| Style_already_exists (new_name : string)
    (* "There is already a style called %r" % new_name *)
| Not_a_valid_name (new_name : string)
    (* "%r is not a valid name" % new_name *)
| Framerates_must_be_positive (in_fps out_fps : number)
    (* "Framerates must be positive, cannot transform %f -> %f" *)
| Builtin_message.

Inductive exception :=
| KeyError (m : message)
| ValueError (m : message)
| TypeError
| AttributeError
| IndexError
| OverflowError.

(** The error taxonomy of the specification, as the code raises it. *)
Definition StyleNotFound (old_name : string) : exception :=
  KeyError (Style_not_found old_name).
Definition StyleNameConflict (new_name : string) : exception :=
  ValueError (Style_already_exists new_name).
Definition InvalidStyleName (new_name : string) : exception :=
  ValueError (Not_a_valid_name new_name).
Definition InvalidFramerate (in_fps out_fps : number) : exception :=
  ValueError (Framerates_must_be_positive in_fps out_fps).

Inductive result (A : Type) :=
| Ok (a : A)
| Raise (e : exception).
Arguments Ok {A} a.
Arguments Raise {A} e.

Definition bind {A B} (r : result A) (k : A -> result B) : result B :=
  match r with
  | Ok a => k a
  | Raise e => Raise e
  end.

Notation "x <- r ;; k" := (bind r (fun x => k))
  (at level 100, r at next level, right associativity).

(** A text value: [str] or [bytes]. *)
Inductive pystr :=
| PStr (s : string)
| PBytes (b : string).

Definition is_bytes (x : pystr) : bool :=
  match x with PBytes _ => true | PStr _ => false end.

Definition LF : ascii := "010"%char.
Definition CR : ascii := "013"%char.
Definition newline : string := String LF "".

Definition is_digit (c : ascii) : bool :=
  (("0" <=? c) && (c <=? "9"))%char.

Definition is_alpha (c : ascii) : bool :=
  ((("a" <=? c) && (c <=? "z")) || (("A" <=? c) && (c <=? "Z")))%char.

(** [int(b)] for a byte string of decimal digits. *)
Definition digit_value (c : ascii) : Z :=
  Z.of_N (N_of_ascii c) - 48.

Fixpoint int_of_digits_from (acc : Z) (s : string) : Z :=
  match s with
  | "" => acc
  | String c t => int_of_digits_from (10 * acc + digit_value c) t
  end.

Definition int_of_digits (s : string) : Z := int_of_digits_from 0 s.

(** Decimal digits of a natural number, most significant first. *)
Definition digit_char (d : Z) : ascii :=
  ascii_of_N (Z.to_N (48 + d)).

Fixpoint digits_fuel (fuel : nat) (n : Z) (acc : string) : string :=
  match fuel with
  | O => acc
  | S k =>
      let acc' := String (digit_char (n mod 10)) acc in
      if n / 10 =? 0 then acc' else digits_fuel k (n / 10) acc'
  end.

Definition digits (n : Z) : string :=
  digits_fuel (S (Z.to_nat (Z.log2 n))) n "".

Fixpoint zeros (n : nat) : string :=
  match n with
  | O => ""
  | S k => String "0" (zeros k)
  end.

(** [format(n, "02d")]: sign-aware zero padding to width 2. *)
Definition format_02d (n : Z) : string :=
  if n <? 0 then
    let d := digits (- n) in
    String "-" (zeros (1 - String.length d) +:+ d)
  else
    let d := digits n in
    zeros (2 - String.length d) +:+ d.

(** ** The time helpers *)

Module time.

(** Modelled from the spec: [make_time] of pysubs2/time.py, which is not
    among the sources, for its time-based arguments: the milliseconds of
    [h] hours, [m] minutes, [s] seconds and [ms] milliseconds. *)
Definition make_time (h m s ms : Z) : Z :=
  ms + s * 1000 + m * 60000 + h * 3600000.

(** Modelled from the spec: [ms_to_times] of pysubs2/time.py, which is not
    among the sources: the hours, minutes, seconds and milliseconds of a
    millisecond count, by floor division. *)
Definition ms_to_times (ms : Z) : Z * Z * Z * Z :=
  let h := ms / 3600000 in
  let ms := ms mod 3600000 in
  let m := ms / 60000 in
  let ms := ms mod 60000 in
  let s := ms / 1000 in
  let ms := ms mod 1000 in
  (h, m, s, ms).

End time.

(** ** The document model *)

(** Modelled from the spec: [SSAStyle] of pysubs2/ssastyle.py, which is
    not among the sources: a value record without a name of its own; of
    its scalar attributes the font and the four boolean flags are kept. *)
Record SSAStyle := mkSSAStyle {
  fontname : string;
  fontsize : Z;
  italic : bool;
  underline : bool;
  strikeout : bool;
  drawing : bool
}.

(** Modelled from the spec: the process-wide [SSAStyle.DEFAULT_STYLE]. *)
Definition DEFAULT_STYLE : SSAStyle :=
  {| fontname := "Arial"; fontsize := 20; italic := false;
     underline := false; strikeout := false; drawing := false |}.

(** Modelled from the spec: [SSAEvent] of pysubs2/ssaevent.py, which is
    not among the sources: start and end in milliseconds, the raw text,
    the name of the style and the comment flag. *)
Record SSAEvent := mkSSAEvent {
  start : Z;
  end_ : Z;
  text : pystr;
  style : string;
  is_comment : bool
}.

(** [SSAEvent(start=..., end=..., text=...)]: the other fields take
    their defaults. *)
Definition new_SSAEvent (start end_ : Z) (text : pystr) : SSAEvent :=
  {| start := start; end_ := end_; text := text;
     style := "Default"; is_comment := false |}.

Definition set_start (v : Z) (e : SSAEvent) : SSAEvent :=
  {| start := v; end_ := end_ e; text := text e;
     style := style e; is_comment := is_comment e |}.

Definition set_end (v : Z) (e : SSAEvent) : SSAEvent :=
  {| start := start e; end_ := v; text := text e;
     style := style e; is_comment := is_comment e |}.

Definition set_style (v : string) (e : SSAEvent) : SSAEvent :=
  {| start := start e; end_ := end_ e; text := text e;
     style := v; is_comment := is_comment e |}.

(** The attributes of an [SSAFile] instance. *)
Record SSAFile := mkSSAFile {
  events : list SSAEvent;
  styles : gmap string SSAStyle;
  info : gmap string string;
  fps : option number;
  format : option string
}.

Definition set_events (v : list SSAEvent) (subs : SSAFile) : SSAFile :=
  {| events := v; styles := styles subs; info := info subs;
     fps := fps subs; format := format subs |}.

Definition set_styles (v : gmap string SSAStyle) (subs : SSAFile) : SSAFile :=
  {| events := events subs; styles := v; info := info subs;
     fps := fps subs; format := format subs |}.

(** [SSAFile.DEFAULT_STYLES] and [SSAFile.DEFAULT_INFO]. *)
Definition DEFAULT_STYLES : gmap string SSAStyle :=
  {[ "Default" := DEFAULT_STYLE ]}.

Definition DEFAULT_INFO : gmap string string :=
  <["WrapStyle" := "0"]>
    (<["ScaledBorderAndShadow" := "yes"]> {[ "Collisions" := "Normal" ]}).

(** [SSAFile.__init__] *)
Definition new_SSAFile : SSAFile :=
  {| events := []; styles := DEFAULT_STYLES; info := DEFAULT_INFO;
     fps := None; format := None |}.

(** A method that mutates the document: its outcome and the document
    as the call leaves it. *)
Definition method (A : Type) : Type := SSAFile -> result A * SSAFile.

(** ** Byte-string operations *)

(** [needle in hay] *)
Fixpoint bytes_in (needle hay : string) : bool :=
  String.prefix needle hay
  || match hay with
     | "" => false
     | String _ t => bytes_in needle t
     end.

(** Replacement of the leftmost non-overlapping matches, as [re.sub] and
    [bytes.replace] scan for them: [match_at s] is the length of the
    match that starts at the head of [s], and is never zero for the
    patterns used here. [skip] counts the characters of the last match
    still to be passed over. *)
Fixpoint sub_from (skip : nat) (match_at : string -> option nat)
    (repl : string) (s : string) : string :=
  match s with
  | "" => ""
  | String c t =>
      match skip with
      | S k => sub_from k match_at repl t
      | O =>
          match match_at s with
          | Some n => repl +:+ sub_from (Nat.pred n) match_at repl t
          | None => String c (sub_from O match_at repl t)
          end
      end
  end.

Definition re_sub (match_at : string -> option nat) (repl s : string) : string :=
  sub_from O match_at repl s.

Definition match_literal (old : string) (s : string) : option nat :=
  if String.prefix old s then Some (String.length old) else None.

(** [s.replace(old, new)] for a non-empty [old]. *)
Definition replace (old new s : string) : string :=
  re_sub (match_literal old) new s.

(** [bytes.splitlines()]: lines end at LF, CR or CR LF, and the line
    boundaries are dropped. [cur] is the line read so far. *)
Fixpoint splitlines_from (cur : string) (s : string) : list string :=
  match s with
  | "" => if String.eqb cur "" then [] else [cur]
  | String c t =>
      if Ascii.eqb c LF then cur :: splitlines_from "" t
      else if Ascii.eqb c CR then
        match t with
        | String c' t' =>
            if Ascii.eqb c' LF then cur :: splitlines_from "" t'
            else cur :: splitlines_from "" t
        | "" => [cur]
        end
      else splitlines_from (cur +:+ String c "") t
  end.

Definition splitlines (s : string) : list string := splitlines_from "" s.

(** ** Regular expressions

    Each pattern of the code is a matcher written by hand: it consumes
    a prefix of its input and returns what the pattern captures with
    the rest of the input, or [None] when the pattern does not match
    there. Greedy repetitions take the longest run; where the pattern
    lets the engine back off (the hour field), the alternatives are
    tried in the engine's order. *)

(** [\d] *)
Definition digit (s : string) : option (ascii * string) :=
  match s with
  | String c t => if is_digit c then Some (c, t) else None
  | "" => None
  end.

(** One literal character. *)
Definition lit (c : ascii) (s : string) : option string :=
  match s with
  | String c' t => if Ascii.eqb c c' then Some t else None
  | "" => None
  end.

(** [\d{2}] *)
Definition two_digits (s : string) : option (string * string) :=
  '(a, s) ← digit s;
  '(b, s) ← digit s;
  Some (String a (String b ""), s).

(** [\d] as a field of its own. *)
Definition one_digit (s : string) : option (string * string) :=
  '(a, s) ← digit s;
  Some (String a "", s).

(** [\d{1,2}] followed by the rest of a pattern, [k]: two digits first,
    one digit when the rest does not match after two. *)
Definition hours {A} (k : string -> string -> option A) (s : string) : option A :=
  match '(h, s') ← two_digits s; k h s' with
  | Some r => Some r
  | None => '(h, s') ← one_digit s; k h s'
  end.

(** [:\d{2}:\d{2}], the minutes and seconds after the hour field. *)
Definition minutes_seconds (s : string) : option (string * string * string) :=
  s ← lit ":" s;
  '(m, s) ← two_digits s;
  s ← lit ":" s;
  '(sec, s) ← two_digits s;
  Some (m, sec, s).

(** The longest prefix of characters that satisfy [p], and the rest. *)
Fixpoint span (p : ascii -> bool) (s : string) : string * string :=
  match s with
  | String c t =>
      if p c then let '(a, b) := span p t in (String c a, b) else ("", s)
  | "" => ("", "")
  end.

(** [.] of a bytes pattern: any byte but the line feed. *)
Definition not_newline (c : ascii) : bool := negb (Ascii.eqb c LF).

(** A match of [TMP_LINE]: its two groups and the length of the match. *)
Record tmp_match := mk_tmp_match {
  group1 : string;
  group2 : string;
  match_length : nat
}.

(** [:\d{2}:\d{2}):(.+)], the rest of [TMP_LINE] after the hour field
    [h]; [s] is what is left of [line]. *)
Definition TMP_LINE_after_hours (line h s : string) : option tmp_match :=
  '(m, sec, s) ← minutes_seconds s;
  s ← lit ":" s;
  let '(body, rest) := span not_newline s in
  if String.eqb body "" then None
  else Some {| group1 := h +:+ ":" +:+ m +:+ ":" +:+ sec;
               group2 := body;
               match_length := (String.length line - String.length rest)%nat |}.

(** [TMP_LINE = re.compile(rb"(\d{1,2}:\d{2}:\d{2}):(.+)")], matched at
    the head of [line] as [TMP_LINE.match(line)] does. *)
Definition TMP_LINE_match (line : string) : option tmp_match :=
  hours (TMP_LINE_after_hours line) line.

(** [TMP_LINE.findall(line)]: the matches found scanning [line] from
    left to right, each search resuming where the last match ended. *)
Fixpoint TMP_LINE_findall_from (skip : nat) (line : string) : list (string * string) :=
  match line with
  | "" => []
  | String _ t =>
      match skip with
      | S k => TMP_LINE_findall_from k t
      | O =>
          match TMP_LINE_match line with
          | Some mt =>
              (group1 mt, group2 mt)
                :: TMP_LINE_findall_from (Nat.pred (match_length mt)) t
          | None => TMP_LINE_findall_from O t
          end
      end
  end.

Definition TMP_LINE_findall (line : string) : list (string * string) :=
  TMP_LINE_findall_from O line.

Definition is_space (c : ascii) : bool := Ascii.eqb c " ".

(** [< *u *>], the length of its match at the head of [s]. *)
Definition match_u_tag (s : string) : option nat :=
  s1 ← lit "<" s;
  s2 ← lit "u" (snd (span is_space s1));
  s3 ← lit ">" (snd (span is_space s2));
  Some (String.length s - String.length s3)%nat.

(** [/?] *)
Definition optional_slash (s : string) : string :=
  match lit "/" s with
  | Some t => t
  | None => s
  end.

(** [[a-zA-Z]] *)
Definition letter (s : string) : option string :=
  match s with
  | String c t => if is_alpha c then Some t else None
  | "" => None
  end.

Definition not_gt (c : ascii) : bool := negb (Ascii.eqb c ">").

(** [< */? *[a-zA-Z][^>]*>], the length of its match at the head of [s]. *)
Definition match_html_tag (s : string) : option nat :=
  s1 ← lit "<" s;
  s2 ← letter (snd (span is_space (optional_slash (snd (span is_space s1)))));
  s3 ← lit ">" (snd (span not_gt s2));
  Some (String.length s - String.length s3)%nat.

(** [\n+], the length of its match at the head of [s]. *)
Definition match_newlines (s : string) : option nat :=
  match String.length (fst (span (Ascii.eqb LF) s)) with
  | O => None
  | n => Some n
  end.

Module time_patterns.

(** Modelled from the spec: [TIMESTAMP_SHORT] of pysubs2/time.py, which is
    not among the sources: the clock pattern [(\d{1,2}):(\d{2}):(\d{2})]
    of hours, minutes and seconds; [TIMESTAMP_SHORT.match(s).groups()]. *)
Definition TIMESTAMP_SHORT_after_hours (h s : string)
    : option (string * string * string) :=
  '(m, sec, _) ← minutes_seconds s;
  Some (h, m, sec).

Definition TIMESTAMP_SHORT_match (s : string) : option (string * string * string) :=
  hours TIMESTAMP_SHORT_after_hours s.

(** Modelled from the spec: [timestamp_to_ms] of pysubs2/time.py, which is
    not among the sources: the milliseconds of the hours, minutes and
    seconds a clock pattern captured. *)
Definition timestamp_to_ms (groups : string * string * string) : Z :=
  let '(h, m, s) := groups in
  int_of_digits s * 1000 + int_of_digits m * 60000 + int_of_digits h * 3600000.

End time_patterns.


(** ** Operations on text values *)

Definition DQUOTE : ascii := "034"%char.
Definition SQUOTE : ascii := "039"%char.
Definition BACKSLASH : ascii := "092"%char.
Definition TAB : ascii := "009"%char.

Definition hex_digit (n : N) : ascii :=
  if (n <? 10)%N then ascii_of_N (48 + n) else ascii_of_N (87 + n).

Fixpoint string_mem (c : ascii) (s : string) : bool :=
  match s with
  | "" => false
  | String c' t => Ascii.eqb c c' || string_mem c t
  end.

(** One byte inside [repr(b)], between the quotes [quote]. *)
Definition repr_byte (quote c : ascii) : string :=
  if Ascii.eqb c quote || Ascii.eqb c BACKSLASH then String BACKSLASH (String c "")
  else if Ascii.eqb c TAB then String BACKSLASH "t"
  else if Ascii.eqb c LF then String BACKSLASH "n"
  else if Ascii.eqb c CR then String BACKSLASH "r"
  else
    let n := N_of_ascii c in
    if ((n <? 32) || (127 <=? n))%N then
      String BACKSLASH
        (String "x" (String (hex_digit (n / 16)) (String (hex_digit (n mod 16)) "")))
    else String c "".

Fixpoint repr_bytes_body (quote : ascii) (b : string) : string :=
  match b with
  | "" => ""
  | String c t => repr_byte quote c +:+ repr_bytes_body quote t
  end.

(** [repr(b)] of a bytes object: double quotes when [b] holds a single
    quote and no double quote, single quotes otherwise. *)
Definition bytes_repr (b : string) : string :=
  let quote :=
    if string_mem SQUOTE b && negb (string_mem DQUOTE b) then DQUOTE else SQUOTE in
  String "b" (String quote (repr_bytes_body quote b +:+ String quote "")).

(** [str(x)], which is also what an f-string field [{x}] inserts. *)
Definition py_str (x : pystr) : string :=
  match x with
  | PStr s => s
  | PBytes b => bytes_repr b
  end.

(** [x.replace(old, new)] with bytes arguments [old] and [new]. *)
Definition replace_bytes_args (old new : string) (x : pystr) : result pystr :=
  match x with
  | PBytes b => Ok (PBytes (replace old new b))
  | PStr _ => Raise TypeError
  end.

(** [f"{pre}{x}{post}"] *)
Definition fstring (pre : string) (x : pystr) (post : string) : pystr :=
  PStr (pre +:+ py_str x +:+ post).

(** [sep.join(items)] for a str separator: every item must be a str. *)
Fixpoint str_join_empty (items : list pystr) : result string :=
  match items with
  | [] => Ok ""
  | PStr s :: rest => r <- str_join_empty rest ;; Ok (s +:+ r)
  | PBytes _ :: _ => Raise TypeError
  end.

(** The white space [str.strip()] removes, among the code points below 256. *)
Definition is_whitespace (c : ascii) : bool :=
  let n := N_of_ascii c in
  (((9 <=? n) && (n <=? 13)) || ((28 <=? n) && (n <=? 32))
   || (n =? 133) || (n =? 160))%N.

Fixpoint rstrip (s : string) : string :=
  match s with
  | "" => ""
  | String c t =>
      match rstrip t with
      | "" => if is_whitespace c then "" else String c ""
      | t' => String c t'
      end
  end.

Definition str_strip (s : string) : string :=
  rstrip (snd (span is_whitespace s)).

(** [re.sub(pattern, repl, x)] for a bytes pattern and replacement. *)
Definition re_sub_bytes_pattern (match_at : string -> option nat)
    (repl : string) (x : pystr) : result pystr :=
  match x with
  | PBytes b => Ok (PBytes (re_sub match_at repl b))
  | PStr _ => Raise TypeError
  end.

(** [x + y] *)
Definition py_add (x y : pystr) : result pystr :=
  match x, y with
  | PStr a, PStr b => Ok (PStr (a +:+ b))
  | PBytes a, PBytes b => Ok (PBytes (a +:+ b))
  | _, _ => Raise TypeError
  end.

Inductive warning :=
| RuntimeWarning (msg : string).


(** ** pysubs2/tmp.py *)

Module TmpFormat.

(** [MAX_REPRESENTABLE_TIME = make_time(h=99, m=59, s=59)]: the largest
    timestamp allowed in TMP, 99:59:59. *)
Definition MAX_REPRESENTABLE_TIME : Z := time.make_time 99 59 59 0.

Definition overflow_warning : warning :=
  RuntimeWarning "Overflow in TMP timestamp, clamping to MAX_REPRESENTABLE_TIME".

(** [TmpFormat.ms_to_timestamp]: the text 'HH:MM:SS' and the warnings
    the call issued. *)
Definition ms_to_timestamp (ms : Z) : string * list warning :=
  let ms := if ms <? 0 then 0 else ms in
  let '(ms, warned) :=
    if ms >? MAX_REPRESENTABLE_TIME
    then (MAX_REPRESENTABLE_TIME, [overflow_warning])
    else (ms, []) in
  let '(h, m, s, _) := time.ms_to_times ms in
  (format_02d h +:+ ":" +:+ format_02d m +:+ ":" +:+ format_02d s, warned).

(** The test of one line in [guess_format]:
    [TMP_LINE.match(line) and len(TMP_LINE.findall(line)) == 1]. *)
Definition is_tmp_line (line : string) : bool :=
  match TMP_LINE_match line with
  | Some _ => Nat.eqb (length (TMP_LINE_findall line)) 1
  | None => false
  end.

(** [TmpFormat.guess_format]; a call that falls off the end of the loop
    returns [None]. *)
Definition guess_format (text : string) : option string :=
  if bytes_in "[Script Info]" text || bytes_in "[V4+ Styles]" text then None
  else if existsb is_tmp_line (splitlines text) then Some "tmp"
  else None.

(** [prepare_text] of [from_file]. *)
Definition from_file_prepare_text (text : string) : string :=
  let text := replace "|" "\N" text in
  let text := re_sub match_u_tag "{\u1}" text in
  let text := re_sub match_html_tag "" text in
  text.

(** The first loop of [from_file]: one event for every line that
    matches [TMP_LINE], appended to [events]. *)
Fixpoint read_lines (events : list SSAEvent) (fp : list string)
    : result (list SSAEvent) :=
  match fp with
  | [] => Ok events
  | line :: rest =>
      match TMP_LINE_match line with
      | None => read_lines events rest
      | Some mt =>
          match time_patterns.TIMESTAMP_SHORT_match (group1 mt) with
          | None => Raise AttributeError
          | Some groups =>
              let start := time_patterns.timestamp_to_ms groups in
              let end_guess := start + 500 + Z.of_nat (String.length line) * 67 in
              let event :=
                new_SSAEvent start end_guess
                  (PBytes (from_file_prepare_text (group2 mt))) in
              read_lines (events ++ [event]) rest
          end
      end
  end.

(** [events[i].end = min(events[i].end, events[i+1].start)] *)
Definition repair_step (events : list SSAEvent) (i : nat)
    : result (list SSAEvent) :=
  match events !! i, events !! S i with
  | Some a, Some b => Ok (<[i := set_end (Z.min (end_ a) (start b)) a]> events)
  | _, _ => Raise IndexError
  end.

(** The second loop of [from_file], over [range(len(events) - 1)]. *)
Definition repair_overlaps (events : list SSAEvent) : result (list SSAEvent) :=
  foldl (fun acc i => evs <- acc ;; repair_step evs i)
        (Ok events) (seq 0 (length events - 1)).

(** [TmpFormat.from_file]: [fp] is the sequence of lines the file
    object yields, each a bytes object with its line end. *)
Definition from_file (fp : list string) : method unit := fun subs =>
  match evs <- read_lines [] fp ;; repair_overlaps evs with
  | Ok evs => (Ok tt, set_events evs subs)
  | Raise e => (Raise e, subs)
  end.

(** What a call of [to_file] has written to [fp] and the warnings it
    has issued. *)
Record sink := mk_sink {
  written : string;
  warnings : list warning
}.

Definition warn (w : list warning) (out : sink) : sink :=
  {| written := written out; warnings := warnings out ++ w |}.

(** [print(x, end="\n", file=fp)] *)
Definition print (x : pystr) (out : sink) : sink :=
  {| written := written out +:+ py_str x +:+ newline;
     warnings := warnings out |}.

Section to_file.

(** [parse_tags] of pysubs2/substation.py, which is not among the
    sources: the fragments of a text with their resolved styles. *)
Variable parse_tags :
  pystr -> SSAStyle -> gmap string SSAStyle -> list (pystr * SSAStyle).

Variable apply_styles : bool.

(** The body of the loop of [prepare_text] up to [body.append]: the
    fragment as it is appended. *)
Definition render_fragment (fragment : pystr) (sty : SSAStyle) : result pystr :=
  fragment <- replace_bytes_args "\h" " " fragment ;;
  fragment <- replace_bytes_args "\n" newline fragment ;;
  fragment <- replace_bytes_args "\N" newline fragment ;;
  let fragment :=
    if apply_styles then
      let fragment := if italic sty then fstring "<i>" fragment "</i>" else fragment in
      let fragment := if underline sty then fstring "<u>" fragment "</u>" else fragment in
      let fragment := if strikeout sty then fstring "<s>" fragment "</s>" else fragment in
      fragment
    else fragment in
  Ok fragment.

(** The loop of [prepare_text]: [body] and [skip] after the fragments. *)
Fixpoint collect_fragments (body : list pystr) (skip : bool)
    (fragments : list (pystr * SSAStyle)) : result (list pystr * bool) :=
  match fragments with
  | [] => Ok (body, skip)
  | (fragment, sty) :: rest =>
      fragment <- render_fragment fragment sty ;;
      let skip := if drawing sty then true else skip in
      collect_fragments (body ++ [fragment]) skip rest
  end.

(** [prepare_text] of [to_file], from the fragments [parse_tags] gave. *)
Definition prepare_fragments (fragments : list (pystr * SSAStyle)) : result pystr :=
  collected <- collect_fragments [] false fragments ;;
  let '(body, skip) := collected in
  if skip then Ok (PStr "")
  else
    joined <- str_join_empty body ;;
    re_sub_bytes_pattern match_newlines newline (PStr (str_strip joined)).

Definition to_file_prepare_text (subs : SSAFile) (text : pystr) (style : SSAStyle)
    : result pystr :=
  prepare_fragments (parse_tags text style (styles subs)).

(** The loop of [to_file] over the visible lines. *)
Fixpoint write_lines (subs : SSAFile) (lines : list SSAEvent) (out : sink)
    : result unit * sink :=
  match lines with
  | [] => (Ok tt, out)
  | line :: rest =>
      let '(start, warned) := ms_to_timestamp (start line) in
      let out := warn warned out in
      match
        text <- to_file_prepare_text subs (text line)
                  (default DEFAULT_STYLE (styles subs !! style line)) ;;
        head <- py_add (PStr start) (PBytes ":") ;;
        py_add head text
      with
      | Ok row => write_lines subs rest (print row out)
      | Raise e => (Raise e, out)
      end
  end.

(** [TmpFormat.to_file] on an empty sink. *)
Definition to_file (subs : SSAFile) : result unit * sink :=
  write_lines subs
    (filter (fun line => is_comment line = false) (events subs))
    {| written := ""; warnings := [] |}.

End to_file.

End TmpFormat.

(** ** pysubs2/ssafile.py *)

Section retiming.

(** The arithmetic of the retiming methods on numbers that may be
    floats is not modelled; it is taken as given:
    - [frame_time frames fps] is [make_time] for a call that gives
      [frames] or [fps];
    - [true_div x y] is [x / y];
    - [round_scaled t ratio] is [int(round(t * ratio))]. *)
Variable frame_time : option Z -> option number -> result Z.
Variable true_div : number -> number -> result number.
Variable round_scaled : Z -> number -> result Z.

(** [make_time(h, m, s, ms, frames, fps)] with integer [h], [m], [s]
    and [ms]. *)
Definition make_time (h m s ms : Z) (frames : option Z) (fps : option number)
    : result Z :=
  match frames, fps with
  | None, None => Ok (time.make_time h m s ms)
  | _, _ => frame_time frames fps
  end.

(** The loop of [shift]. *)
Definition shift_line (delta : Z) (line : SSAEvent) : SSAEvent :=
  let line := set_start (start line + delta) line in
  set_end (end_ line + delta) line.

(** [SSAFile.shift], the event list taken by value: every index holds
    an object of its own. For an object that sits at several indexes see
    [shift_shared]. *)
Definition shift (h m s ms : Z) (frames : option Z) (fps : option number)
    : method unit := fun subs =>
  match make_time h m s ms frames fps with
  | Raise e => (Raise e, subs)
  | Ok delta => (Ok tt, set_events (map (shift_line delta) (events subs)) subs)
  end.

(** [x <= 0] *)
Definition le_zero (x : number) : bool :=
  match x with
  | PyInt z => z <=? 0
  | PyFloat f => PrimFloat.leb f PrimFloat.zero
  end.

(** The loop of [transform_framerate]: the outcome and the events as
    the loop leaves them, also when an assignment raises midway. The
    event list is taken by value, every index an object of its own; for
    an object that sits at several indexes see [transform_shared]. *)
Fixpoint transform_lines (ratio : number) (lines : list SSAEvent)
    : result unit * list SSAEvent :=
  match lines with
  | [] => (Ok tt, [])
  | line :: rest =>
      match round_scaled (start line) ratio with
      | Raise e => (Raise e, line :: rest)
      | Ok v =>
          let line := set_start v line in
          match round_scaled (end_ line) ratio with
          | Raise e => (Raise e, line :: rest)
          | Ok v =>
              let line := set_end v line in
              let '(r, rest) := transform_lines ratio rest in
              (r, line :: rest)
          end
      end
  end.

(** [float(z)] of an int: the ints that round to a finite double, those
    of magnitude below 2^1024 - 2^970; the others raise OverflowError. *)
Definition int_fits_float (z : Z) : bool :=
  Z.abs z <? 2 ^ 1024 - 2 ^ 970.

(** The conversion ["%f" % x] makes of [x]: an int is turned into a
    float first, a float is taken as it is. *)
Definition format_f (x : number) : result unit :=
  match x with
  | PyInt z => if int_fits_float z then Ok tt else Raise OverflowError
  | PyFloat _ => Ok tt
  end.

(** The exception
    [raise ValueError("Framerates must be positive, cannot transform %f -> %f"
                      % (in_fps, out_fps))]
    ends with: the message is formatted before the ValueError is made,
    [in_fps] first. *)
Definition framerate_error (in_fps out_fps : number) : exception :=
  match _ <- format_f in_fps ;; format_f out_fps with
  | Ok _ => InvalidFramerate in_fps out_fps
  | Raise e => e
  end.

(** [SSAFile.transform_framerate] *)
Definition transform_framerate (in_fps out_fps : number) : method unit := fun subs =>
  if le_zero in_fps || le_zero out_fps then
    (Raise (framerate_error in_fps out_fps), subs)
  else
    match true_div in_fps out_fps with
    | Raise e => (Raise e, subs)
    | Ok ratio =>
        let '(r, lines) := transform_lines ratio (events subs) in
        (r, set_events lines subs)
    end.

End retiming.

(** Modelled from the spec: [is_valid_field_content] of
    pysubs2/formats/substation.py, which is not among the sources: a
    style name is legal when it is not empty and holds no comma. *)
Definition is_valid_field_content (s : string) : bool :=
  negb (String.eqb s "") && negb (string_mem "," s).

(** The loop of [rename_style]. *)
Definition rename_line (old_name new_name : string) (line : SSAEvent) : SSAEvent :=
  if String.eqb (style line) old_name then set_style new_name line else line.

(** [SSAFile.rename_style] *)
Definition rename_style (old_name new_name : string) : method unit := fun subs =>
  if negb (bool_decide (is_Some (styles subs !! old_name))) then
    (Raise (StyleNotFound old_name), subs)
  else if bool_decide (is_Some (styles subs !! new_name)) then
    (Raise (StyleNameConflict new_name), subs)
  else if negb (is_valid_field_content new_name) then
    (Raise (InvalidStyleName new_name), subs)
  else
    match styles subs !! old_name with
    | None => (Raise (KeyError Builtin_message), subs)
    | Some sty =>
        let subs := set_styles (<[new_name := sty]> (styles subs)) subs in
        let subs := set_styles (delete old_name (styles subs)) subs in
        (Ok tt, set_events (map (rename_line old_name new_name) (events subs)) subs)
    end.

(** The keys of the style table in their order, an [OrderedDict]:
    [self.styles[new_name] = ...] puts a key that is new last, and
    [del self.styles[old_name]] takes the old key out. *)
Definition rename_keys (old_name new_name : string) (keys : list string)
    : list string :=
  filter (fun k => k <> old_name)
    (if bool_decide (new_name ∈ keys) then keys else keys ++ [new_name]).


(** ** Sample documents *)

Definition sample_event (start end_ : Z) (style : string) : SSAEvent :=
  {| start := start; end_ := end_; text := PBytes "Hello";
     style := style; is_comment := false |}.

(** A document with the default style, a style "Sign", two events in
    "Default" and one in "Sign". *)
Definition sample_subs : SSAFile :=
  {| events := [sample_event 0 1500 "Default";
                sample_event 1000 2500 "Sign";
                sample_event 3000 4000 "Default"];
     styles := <["Sign" := DEFAULT_STYLE]> DEFAULT_STYLES;
     info := DEFAULT_INFO;
     fps := None;
     format := None |}.

(** A document whose style table holds a name with a comma. *)
Definition comma_subs : SSAFile :=
  set_styles (<["a,b" := DEFAULT_STYLE]> DEFAULT_STYLES) sample_subs.

(** Stand-ins for the arithmetic on floats, for calls that never reach it. *)
Definition no_frame_time (frames : option Z) (fps : option number) : result Z :=
  Raise (ValueError Builtin_message).
Definition no_true_div (x y : number) : result number := Raise OverflowError.
Definition no_round_scaled (t : Z) (ratio : number) : result Z := Raise OverflowError.

(** A text with the sentinel "[Script Info]" and a line in the TMP grammar. *)
Definition sentinel_and_tmp_line : string :=
  "[Script Info]" +:+ newline +:+ "00:00:01:Hello".

(** The default style with the drawing flag set. *)
Definition drawing_style : SSAStyle :=
  {| fontname := "Arial"; fontsize := 20; italic := false;
     underline := false; strikeout := false; drawing := true |}.

(** The fragments of the text "A{\p1}B": "A" in the base style, "B" as
    a drawing. *)
Definition sample_fragments : list (pystr * SSAStyle) :=
  [(PBytes "A", DEFAULT_STYLE); (PBytes "B", drawing_style)].

(** A stand-in for [parse_tags] that gives [sample_fragments]. *)
Definition sample_parse_tags (text : pystr) (style : SSAStyle)
    (styles : gmap string SSAStyle) : list (pystr * SSAStyle) :=
  sample_fragments.

(** The reading of the specification: the text of a written line is
    empty only when every fragment of the event is a drawing. *)
Definition empty_only_when_all_dropped
    (parse_tags : pystr -> SSAStyle -> gmap string SSAStyle -> list (pystr * SSAStyle))
    (apply_styles : bool) (subs : SSAFile) (text : pystr) (style : SSAStyle) : Prop :=
  TmpFormat.to_file_prepare_text parse_tags apply_styles subs text style
  = Ok (PStr "") ->
  Forall (fun f => drawing (snd f) = true) (parse_tags text style (styles subs)).

(** ** The repair pass, round by round *)

(** The events after the first [k] rounds of the repair loop. *)
Definition repair_rounds (events : list SSAEvent) (k : nat) : result (list SSAEvent) :=
  foldl (fun acc i => evs <- acc ;; TmpFormat.repair_step evs i)
        (Ok events) (seq 0 k).

(** ** Events shared between indexes

    The event list of a document holds references: one [SSAEvent]
    object may sit at several indexes, and the loop of [shift] then
    meets it once for each of them. [heap] holds the objects and
    [refs] is the event list as addresses into it. *)
Definition shift_shared (delta : Z) (refs : list nat) (heap : list SSAEvent)
    : list SSAEvent :=
  foldl (fun heap r => alter (shift_line delta) r heap) heap refs.

(** No event of the list ends after the next one starts, read through
    the references. *)
Definition no_overlap_shared (refs : list nat) (heap : list SSAEvent) : Prop :=
  forall i r1 r2 e1 e2,
    refs !! i = Some r1 -> refs !! S i = Some r2 ->
    heap !! r1 = Some e1 -> heap !! r2 = Some e2 ->
    end_ e1 <= start e2.

Section shared_rescaling.

(** The arithmetic on floats, taken as given as for [transform_framerate]. *)
Variable true_div : number -> number -> result number.
Variable round_scaled : Z -> number -> result Z.

(** The loop of [transform_framerate] over shared events: every
    assignment is made to the object, at once. A reference is the
    address of an object of the heap. *)
Fixpoint transform_shared (ratio : number) (refs : list nat)
    (heap : list SSAEvent) : result unit * list SSAEvent :=
  match refs with
  | [] => (Ok tt, heap)
  | r :: rest =>
      match heap !! r with
      | None => transform_shared ratio rest heap
      | Some line =>
          match round_scaled (start line) ratio with
          | Raise e => (Raise e, heap)
          | Ok v =>
              let line := set_start v line in
              let heap := <[r := line]> heap in
              match round_scaled (end_ line) ratio with
              | Raise e => (Raise e, heap)
              | Ok w => transform_shared ratio rest (<[r := set_end w line]> heap)
              end
          end
      end
  end.

(** [SSAFile.transform_framerate] on a document with shared events:
    the outcome and the heap the call leaves. *)
Definition transform_framerate_shared (in_fps out_fps : number)
    (refs : list nat) (heap : list SSAEvent) : result unit * list SSAEvent :=
  if le_zero in_fps || le_zero out_fps then
    (Raise (framerate_error in_fps out_fps), heap)
  else
    match true_div in_fps out_fps with
    | Raise e => (Raise e, heap)
    | Ok ratio => transform_shared ratio refs heap
    end.

End shared_rescaling.

(** ** More of pysubs2/ssafile.py *)

(** An argument of a method that tests its class with [isinstance]. *)
Inductive pyobject :=
| SSAFile_object (subs : SSAFile)
| SSAEvent_object (event : SSAEvent)
| other_object.

(** The body of the loop of [import_styles]:
    [if name not in self.styles or overwrite: self.styles[name] = style]. *)
Definition import_style (overwrite : bool) (styles : gmap string SSAStyle)
    (item : string * SSAStyle) : gmap string SSAStyle :=
  let '(name, style) := item in
  if negb (bool_decide (is_Some (styles !! name))) || overwrite
  then <[name := style]> styles
  else styles.

(** [SSAFile.import_styles]: the loop visits [subs.styles.items()], the
    items of the other table, each key once. *)
Definition import_styles (subs : pyobject) (overwrite : bool) : method unit :=
  fun self =>
    match subs with
    | SSAFile_object other =>
        (Ok tt,
         set_styles
           (foldl (import_style overwrite) (styles self)
                  (map_to_list (styles other)))
           self)
    | _ => (Raise TypeError, self)
    end.

(** [list.insert(index, value)]: a negative index counts from the end,
    and an index beyond either end is moved to that end. *)
Definition insert_position (index : Z) (len : nat) : nat :=
  if index <? 0 then Z.to_nat (Z.max 0 (index + Z.of_nat len))
  else Z.to_nat (Z.min index (Z.of_nat len)).

(** The indexes [list.insert] takes: those of a C [ssize_t], of 64 bits;
    any other int raises OverflowError. *)
Definition fits_ssize_t (index : Z) : bool :=
  (- 2 ^ 63 <=? index) && (index <? 2 ^ 63).

(** [SSAFile.insert] *)
Definition insert (index : Z) (value : pyobject) : method unit := fun self =>
  match value with
  | SSAEvent_object event =>
      if fits_ssize_t index then
        let k := insert_position index (length (events self)) in
        (Ok tt,
         set_events (take k (events self) ++ event :: drop k (events self)) self)
      else (Raise OverflowError, self)
  | _ => (Raise TypeError, self)
  end.

(** [SSAFile.__len__] *)
Definition len (self : SSAFile) : nat := length (events self).

(** ** Timing of an event list *)

(** No event ends after the next one starts. *)
Definition no_overlap (events : list SSAEvent) : Prop :=
  forall i e1 e2,
    events !! i = Some e1 -> events !! S i = Some e2 -> end_ e1 <= start e2.

(** The events start in order. *)
Definition starts_sorted (events : list SSAEvent) : Prop :=
  forall i e1 e2,
    events !! i = Some e1 -> events !! S i = Some e2 -> start e1 <= start e2.

(** Two events that differ at most in their start and end. *)
Definition same_content (e e' : SSAEvent) : Prop :=
  text e' = text e /\ style e' = style e /\ is_comment e' = is_comment e.

(** An event as the first loop of [from_file] makes it. *)
Definition fresh_event (e : SSAEvent) : Prop :=
  style e = "Default" /\ is_comment e = false /\ is_bytes (text e) = true.

(** An arithmetic for the examples that overflows from a million on:
    below, [int(round(t * ratio))] is taken as [2 * t]. *)
Definition sample_true_div (x y : number) : result number := Ok (PyInt 2).
Definition sample_round_scaled (t : Z) (ratio : number) : result Z :=
  if t <? 1000000 then Ok (2 * t) else Raise OverflowError.

(** * Properties *)

(** ** Records *)

Lemma set_events_same subs : set_events (events subs) subs = subs.
Proof. by destruct subs. Qed.

Lemma shift_line_inverse delta line :
  shift_line (- delta) (shift_line delta line) = line.
Proof.
  destruct line as [s e t sty c]. unfold shift_line, set_start, set_end. simpl.
  f_equal; lia.
Qed.

Lemma shift_lines_inverse delta lines :
  map (shift_line (- delta)) (map (shift_line delta) lines) = lines.
Proof.
  induction lines as [|line lines IH]; simpl; [done|].
  by rewrite shift_line_inverse, IH.
Qed.

(** ** Retiming *)

(** C9: for every document and every millisecond delta, [shift(ms=delta)]
    followed by [shift(ms=-delta)] succeeds twice and leaves the document
    as it was: every event has its original start and end again. *)
Theorem shift_then_shift_back frame_time (subs : SSAFile) (delta : Z) :
  exists subs1 subs2,
    shift frame_time 0 0 0 delta None None subs = (Ok tt, subs1)
    /\ shift frame_time 0 0 0 (- delta) None None subs1 = (Ok tt, subs2)
    /\ map start (events subs2) = map start (events subs)
    /\ map end_ (events subs2) = map end_ (events subs)
    /\ subs2 = subs.
Proof.
  assert (Hd : forall d, time.make_time 0 0 0 d = d)
    by (intros d; unfold time.make_time; lia).
  exists (set_events (map (shift_line delta) (events subs)) subs), subs.
  split; [|split]; [| |done].
  - unfold shift, make_time. by rewrite Hd.
  - unfold shift, make_time. rewrite Hd. simpl.
    rewrite shift_lines_inverse. f_equal. by destruct subs.
Qed.

(** The same with shared events: an object met [n] times is moved by
    [n * delta] and back. *)
Lemma shift_line_commute d d' line :
  shift_line d (shift_line d' line) = shift_line d' (shift_line d line).
Proof.
  destruct line. unfold shift_line, set_start, set_end. simpl. f_equal; lia.
Qed.

Lemma alter_shift_line_commute d d' i j (heap : list SSAEvent) :
  alter (shift_line d) i (alter (shift_line d') j heap)
  = alter (shift_line d') j (alter (shift_line d) i heap).
Proof.
  destruct (decide (i = j)) as [->|Hne].
  - rewrite !list_alter_alter_eq. apply list_alter_ext; [|done].
    intros x _. apply shift_line_commute.
  - by apply list_alter_alter_ne.
Qed.

Lemma shift_shared_cons d r refs heap :
  shift_shared d (r :: refs) heap
  = shift_shared d refs (alter (shift_line d) r heap).
Proof. reflexivity. Qed.

Lemma shift_shared_alter d d' refs : forall i heap,
  shift_shared d refs (alter (shift_line d') i heap)
  = alter (shift_line d') i (shift_shared d refs heap).
Proof.
  unfold shift_shared.
  induction refs as [|r refs IH]; intros i heap; simpl; [done|].
  by rewrite <- IH, alter_shift_line_commute.
Qed.

Lemma shift_shared_inverse delta refs : forall heap,
  shift_shared (- delta) refs (shift_shared delta refs heap) = heap.
Proof.
  induction refs as [|r refs IH]; intros heap; [done|].
  rewrite !shift_shared_cons.
  rewrite <- shift_shared_alter, IH, list_alter_alter_eq.
  apply list_alter_id. intros x. apply shift_line_inverse.
Qed.

Lemma framerate_error_formatted in_fps out_fps :
  format_f in_fps = Ok tt -> format_f out_fps = Ok tt ->
  framerate_error in_fps out_fps = InvalidFramerate in_fps out_fps.
Proof. intros H1 H2. unfold framerate_error. by rewrite H1, H2. Qed.

Lemma format_f_outcome x : format_f x = Ok tt \/ format_f x = Raise OverflowError.
Proof.
  destruct x as [z|f]; simpl; [|by left].
  destruct (int_fits_float z); [by left|by right].
Qed.

Lemma framerate_error_overflow in_fps out_fps :
  format_f in_fps = Raise OverflowError \/ format_f out_fps = Raise OverflowError ->
  framerate_error in_fps out_fps = OverflowError.
Proof.
  unfold framerate_error. intros [H|H].
  - by rewrite H.
  - rewrite H. by destruct (format_f_outcome in_fps) as [-> | ->].
Qed.

(** C6, at an input where the code departs from it:
    [transform_framerate(-10**400, 25)] meets the test [in_fps <= 0], but
    the message of the ValueError cannot be formatted, -10**400 being
    beyond the floats: the call raises OverflowError and not the
    ValueError of a non-positive framerate. The document is left as it
    was. *)
Theorem transform_framerate_beyond_float
    true_div round_scaled (subs : SSAFile) :
  le_zero (PyInt (- 10 ^ 400)) = true
  /\ transform_framerate true_div round_scaled (PyInt (- 10 ^ 400)) (PyInt 25) subs
     = (Raise OverflowError, subs).
Proof.
  assert (Hle : le_zero (PyInt (- 10 ^ 400)) = true) by (by vm_compute).
  assert (Herr : framerate_error (PyInt (- 10 ^ 400)) (PyInt 25) = OverflowError)
    by (by vm_compute).
  split; [exact Hle|]. unfold transform_framerate.
  by rewrite Hle, Herr.
Qed.

(** X21: with [in_fps <= 0] or [out_fps <= 0] the call raises before it
    touches the document, whatever the numbers: the ValueError of a
    non-positive framerate when both format as floats, every float and
    every int below 2^1024 - 2^970 in magnitude, and the OverflowError of
    the formatting otherwise. *)
Theorem transform_framerate_rejects_non_positive
    true_div round_scaled (in_fps out_fps : number) (subs : SSAFile) :
  le_zero in_fps = true \/ le_zero out_fps = true ->
  exists e,
    transform_framerate true_div round_scaled in_fps out_fps subs = (Raise e, subs)
    /\ (format_f in_fps = Ok tt -> format_f out_fps = Ok tt ->
        e = InvalidFramerate in_fps out_fps)
    /\ (format_f in_fps = Raise OverflowError
        \/ format_f out_fps = Raise OverflowError ->
        e = OverflowError).
Proof.
  intros H. exists (framerate_error in_fps out_fps). split_and!.
  - unfold transform_framerate.
    assert (le_zero in_fps || le_zero out_fps = true) as ->; [|done].
    destruct H as [-> | ->]; [done|]. apply orb_true_r.
  - apply framerate_error_formatted.
  - apply framerate_error_overflow.
Qed.

Lemma transform_framerate_rejects_minus_one :
  (le_zero (PyInt (-1)) = true \/ le_zero (PyInt 25) = true)
  /\ transform_framerate no_true_div no_round_scaled (PyInt (-1)) (PyInt 25) sample_subs
     = (Raise (InvalidFramerate (PyInt (-1)) (PyInt 25)), sample_subs).
Proof.
  assert (H : le_zero (PyInt (-1)) = true \/ le_zero (PyInt 25) = true)
    by (left; reflexivity).
  split; [exact H|].
  destruct (transform_framerate_rejects_non_positive
              no_true_div no_round_scaled (PyInt (-1)) (PyInt 25) sample_subs H)
    as (e & -> & Hformatted & _).
  by rewrite (Hformatted eq_refl eq_refl).
Defined.

(** ** Renaming a style *)

Lemma rename_style_not_found subs old_name new_name :
  styles subs !! old_name = None ->
  rename_style old_name new_name subs = (Raise (StyleNotFound old_name), subs).
Proof.
  intros H. unfold rename_style. rewrite H.
  rewrite bool_decide_false; [done|]. by intros [? ?].
Qed.

Lemma rename_style_conflict subs old_name new_name :
  is_Some (styles subs !! old_name) ->
  is_Some (styles subs !! new_name) ->
  rename_style old_name new_name subs = (Raise (StyleNameConflict new_name), subs).
Proof.
  intros Hold Hnew. unfold rename_style.
  by rewrite !bool_decide_true.
Qed.

Lemma rename_style_invalid subs old_name new_name :
  is_Some (styles subs !! old_name) ->
  styles subs !! new_name = None ->
  is_valid_field_content new_name = false ->
  rename_style old_name new_name subs = (Raise (InvalidStyleName new_name), subs).
Proof.
  intros Hold Hnew Hvalid. unfold rename_style.
  rewrite bool_decide_true by done.
  rewrite bool_decide_false by (rewrite Hnew; by intros [? ?]).
  by rewrite Hvalid.
Qed.

Lemma rename_style_renames subs old_name new_name sty :
  styles subs !! old_name = Some sty ->
  styles subs !! new_name = None ->
  is_valid_field_content new_name = true ->
  rename_style old_name new_name subs
  = (Ok tt,
     {| events := map (rename_line old_name new_name) (events subs);
        styles := delete old_name (<[new_name := sty]> (styles subs));
        info := info subs; fps := fps subs; format := format subs |}).
Proof.
  intros Hold Hnew Hvalid. unfold rename_style.
  rewrite bool_decide_true by (rewrite Hold; by eexists).
  rewrite bool_decide_false by (rewrite Hnew; by intros [? ?]).
  by rewrite Hvalid, Hold.
Qed.

(** The four ways a call of [rename_style] can end. *)
Lemma rename_style_cases subs old_name new_name :
  (styles subs !! old_name = None
   /\ rename_style old_name new_name subs = (Raise (StyleNotFound old_name), subs))
  \/ (is_Some (styles subs !! old_name) /\ is_Some (styles subs !! new_name)
      /\ rename_style old_name new_name subs
         = (Raise (StyleNameConflict new_name), subs))
  \/ (is_Some (styles subs !! old_name) /\ styles subs !! new_name = None
      /\ is_valid_field_content new_name = false
      /\ rename_style old_name new_name subs
         = (Raise (InvalidStyleName new_name), subs))
  \/ (exists sty,
        styles subs !! old_name = Some sty /\ styles subs !! new_name = None
        /\ is_valid_field_content new_name = true
        /\ rename_style old_name new_name subs
           = (Ok tt,
              {| events := map (rename_line old_name new_name) (events subs);
                 styles := delete old_name (<[new_name := sty]> (styles subs));
                 info := info subs; fps := fps subs; format := format subs |})).
Proof.
  destruct (styles subs !! old_name) as [sty|] eqn:Hold.
  - destruct (styles subs !! new_name) as [sty'|] eqn:Hnew.
    + right; left. split_and!; [by eexists..|].
      apply rename_style_conflict; rewrite ?Hold, ?Hnew; by eexists.
    + destruct (is_valid_field_content new_name) eqn:Hvalid.
      * right; right; right. exists sty. split_and!; [done..|].
        by apply rename_style_renames.
      * right; right; left. split_and!; [by eexists|done..|].
        apply rename_style_invalid; rewrite ?Hold; done.
  - left. split; [done|]. by apply rename_style_not_found.
Qed.

Lemma invalid_name_iff new_name :
  is_valid_field_content new_name = false
  <-> new_name = "" \/ string_mem "," new_name = true.
Proof.
  unfold is_valid_field_content. split.
  - intros H. apply andb_false_iff in H as [H|H];
      apply negb_false_iff in H; [left|right]; [|done].
    by apply String.eqb_eq.
  - intros [-> | H]; [done|]. rewrite H. apply andb_false_r.
Qed.

(** C10: for a name that is a key of the style table,
    [rename_style(name, name)] is no silent no-op: the test that the new
    name is taken comes before the test of its validity, so the call
    raises the ValueError of a taken name, whether or not the name is a
    legal one, and leaves the document as it was. *)
Theorem rename_style_to_same_name (subs : SSAFile) (name : string) :
  is_Some (styles subs !! name) ->
  rename_style name name subs = (Raise (StyleNameConflict name), subs).
Proof. intros H. by apply rename_style_conflict. Qed.

Lemma rename_style_comma_name_to_itself :
  is_Some (styles comma_subs !! "a,b")
  /\ is_valid_field_content "a,b" = false
  /\ rename_style "a,b" "a,b" comma_subs = (Raise (StyleNameConflict "a,b"), comma_subs).
Proof.
  assert (H : is_Some (styles comma_subs !! "a,b")) by (by eexists).
  split; [exact H|]. split; [reflexivity|].
  exact (rename_style_to_same_name comma_subs "a,b" H).
Defined.

(** C4: [rename_style(old, new)] raises the KeyError of a style not
    found when [old] is no key of the style table; otherwise the
    ValueError of a taken name when [new] is a key; otherwise the
    ValueError of an illegal name when [new] is empty or holds a comma.
    A call that raises raises one of these three and leaves the
    document (styles, events and info) as it was. *)
Theorem rename_style_failures (subs : SSAFile) (old_name new_name : string) :
  (styles subs !! old_name = None ->
   rename_style old_name new_name subs = (Raise (StyleNotFound old_name), subs))
  /\ (is_Some (styles subs !! old_name) ->
      is_Some (styles subs !! new_name) ->
      rename_style old_name new_name subs
      = (Raise (StyleNameConflict new_name), subs))
  /\ (is_Some (styles subs !! old_name) ->
      styles subs !! new_name = None ->
      new_name = "" \/ string_mem "," new_name = true ->
      rename_style old_name new_name subs
      = (Raise (InvalidStyleName new_name), subs))
  /\ (forall e subs',
        rename_style old_name new_name subs = (Raise e, subs') ->
        subs' = subs
        /\ (e = StyleNotFound old_name \/ e = StyleNameConflict new_name
            \/ e = InvalidStyleName new_name)).
Proof.
  split_and!.
  - apply rename_style_not_found.
  - apply rename_style_conflict.
  - intros Hold Hnew Hbad. apply rename_style_invalid; [done..|].
    by apply invalid_name_iff.
  - intros e subs' H.
    destruct (rename_style_cases subs old_name new_name)
      as [[_ E] | [(_ & _ & E) | [(_ & _ & _ & E) | (sty & _ & _ & _ & E)]]];
      rewrite E in H; inversion H; subst; auto.
Qed.

Lemma rename_style_failures_sample :
  rename_style "Missing" "Foo" sample_subs
  = (Raise (StyleNotFound "Missing"), sample_subs)
  /\ rename_style "Default" "Sign" sample_subs
     = (Raise (StyleNameConflict "Sign"), sample_subs)
  /\ rename_style "Default" "Sign,1" sample_subs
     = (Raise (InvalidStyleName "Sign,1"), sample_subs)
  /\ rename_style "Default" "" sample_subs
     = (Raise (InvalidStyleName ""), sample_subs).
Proof.
  split_and!.
  - apply (proj1 (rename_style_failures sample_subs "Missing" "Foo")).
    reflexivity.
  - apply (proj1 (proj2 (rename_style_failures sample_subs "Default" "Sign")));
      by eexists.
  - apply (proj1 (proj2 (proj2
             (rename_style_failures sample_subs "Default" "Sign,1")))).
    + by eexists.
    + reflexivity.
    + right; reflexivity.
  - apply (proj1 (proj2 (proj2 (rename_style_failures sample_subs "Default" "")))).
    + by eexists.
    + reflexivity.
    + left; reflexivity.
Defined.

(** C3: when [rename_style(old, new)] succeeds, the style table has no
    key [old] any more, [new] maps to the record that was stored under
    [old], the other keys keep their records, every event whose style was
    [old] has the style [new] and is otherwise as it was, and every other
    event is as it was. A second [rename_style(old, other)] then raises the
    KeyError of a style not found, whatever [other] is, and changes
    nothing. *)
Theorem rename_style_success (subs subs' : SSAFile) (old_name new_name : string) :
  rename_style old_name new_name subs = (Ok tt, subs') ->
  styles subs' !! old_name = None
  /\ is_Some (styles subs !! old_name)
  /\ styles subs' !! new_name = styles subs !! old_name
  /\ (forall name, name <> old_name -> name <> new_name ->
        styles subs' !! name = styles subs !! name)
  /\ length (events subs') = length (events subs)
  /\ (forall i line, events subs !! i = Some line ->
        style line = old_name ->
        events subs' !! i = Some (set_style new_name line))
  /\ (forall i line, events subs !! i = Some line ->
        style line <> old_name ->
        events subs' !! i = Some line)
  /\ (forall other,
        rename_style old_name other subs' = (Raise (StyleNotFound old_name), subs')).
Proof.
  intros H.
  destruct (rename_style_cases subs old_name new_name)
    as [[_ E] | [(_ & _ & E) | [(_ & _ & _ & E) | (sty & Hold & Hnew & _ & E)]]];
    rewrite E in H; inversion H as [Hsubs]; clear H E.
  assert (Hne : new_name <> old_name) by (intros ->; congruence).
  assert (Hgone : (delete old_name (<[new_name := sty]> (styles subs)) : gmap string SSAStyle)
                  !! old_name = None) by apply lookup_delete_eq.
  simpl. split_and!.
  - exact Hgone.
  - by eexists.
  - rewrite lookup_delete_ne by done. by rewrite lookup_insert_eq.
  - intros name H1 H2. rewrite lookup_delete_ne by done.
    by rewrite lookup_insert_ne.
  - by rewrite length_map.
  - intros i line Hi Hsty. rewrite list_lookup_fmap, Hi. simpl.
    unfold rename_line. by rewrite (proj2 (String.eqb_eq _ _) Hsty).
  - intros i line Hi Hsty. rewrite list_lookup_fmap, Hi. simpl.
    unfold rename_line. by rewrite (proj2 (String.eqb_neq _ _) Hsty).
  - intros other. by apply rename_style_not_found.
Qed.

Lemma rename_style_default_to_foo :
  rename_style "Default" "Foo" sample_subs
  = (Ok tt, snd (rename_style "Default" "Foo" sample_subs))
  /\ map style (events (snd (rename_style "Default" "Foo" sample_subs)))
     = ["Foo"; "Sign"; "Foo"]
  /\ rename_style "Default" "Bar" (snd (rename_style "Default" "Foo" sample_subs))
     = (Raise (StyleNotFound "Default"),
        snd (rename_style "Default" "Foo" sample_subs)).
Proof.
  assert (H : rename_style "Default" "Foo" sample_subs
              = (Ok tt, snd (rename_style "Default" "Foo" sample_subs)))
    by (vm_compute; reflexivity).
  split; [exact H|]. split; [vm_compute; reflexivity|].
  apply (rename_style_success sample_subs _ "Default" "Foo" H).
Defined.

(** ** TMP timestamps *)

Lemma MAX_REPRESENTABLE_TIME_value :
  TmpFormat.MAX_REPRESENTABLE_TIME = 359999000.
Proof. reflexivity. Qed.

Lemma format_02d_length n :
  0 <= n < 100 -> String.length (format_02d n) = 2%nat.
Proof.
  intros Hn.
  assert (exists k, n = Z.of_nat k /\ (k < 100)%nat) as (k & -> & Hk)
    by (exists (Z.to_nat n); lia).
  clear Hn. do 100 (destruct k as [|k]; [reflexivity|]). lia.
Qed.

Lemma length_append (a b : string) :
  String.length (a +:+ b) = (String.length a + String.length b)%nat.
Proof. induction a as [|c a IH]; simpl; [done|]. by rewrite IH. Qed.

Lemma ms_to_timestamp_in_range ms :
  0 <= ms <= TmpFormat.MAX_REPRESENTABLE_TIME ->
  TmpFormat.ms_to_timestamp ms
  = (format_02d (ms / 3600000) +:+ ":"
     +:+ format_02d (ms mod 3600000 / 60000) +:+ ":"
     +:+ format_02d (ms mod 3600000 mod 60000 / 1000), []).
Proof.
  intros [Hlo Hhi]. unfold TmpFormat.ms_to_timestamp.
  rewrite (proj2 (Z.ltb_ge ms 0)) by done.
  assert ((ms >? TmpFormat.MAX_REPRESENTABLE_TIME) = false) as ->; [|done].
  rewrite Z.gtb_ltb. by apply Z.ltb_ge.
Qed.

Lemma ms_to_timestamp_negative ms :
  ms < 0 -> TmpFormat.ms_to_timestamp ms = ("00:00:00", []).
Proof.
  intros H. unfold TmpFormat.ms_to_timestamp.
  by rewrite (proj2 (Z.ltb_lt ms 0)) by done.
Qed.

Lemma ms_to_timestamp_overflow ms :
  TmpFormat.MAX_REPRESENTABLE_TIME < ms ->
  TmpFormat.ms_to_timestamp ms = ("99:59:59", [TmpFormat.overflow_warning]).
Proof.
  intros H. rewrite MAX_REPRESENTABLE_TIME_value in H.
  unfold TmpFormat.ms_to_timestamp.
  rewrite (proj2 (Z.ltb_ge ms 0)) by lia.
  assert ((ms >? TmpFormat.MAX_REPRESENTABLE_TIME) = true) as ->; [|done].
  rewrite Z.gtb_ltb. apply Z.ltb_lt. by rewrite MAX_REPRESENTABLE_TIME_value.
Qed.

(** C8: [ms_to_timestamp] is total on the integers: for every [ms] it
    returns a text of eight characters, the text of [ms] clamped to the
    range from 0 to 99:59:59. A negative [ms] gives 00:00:00 and no
    warning; an [ms] above the maximum gives 99:59:59 and exactly one
    warning, which does not stop the call; within the range there is no
    warning. *)
Theorem ms_to_timestamp_clamps (ms : Z) :
  String.length (fst (TmpFormat.ms_to_timestamp ms)) = 8%nat
  /\ fst (TmpFormat.ms_to_timestamp ms)
     = fst (TmpFormat.ms_to_timestamp
              (Z.min (Z.max ms 0) TmpFormat.MAX_REPRESENTABLE_TIME))
  /\ (ms < 0 -> TmpFormat.ms_to_timestamp ms = ("00:00:00", []))
  /\ (TmpFormat.MAX_REPRESENTABLE_TIME < ms ->
      TmpFormat.ms_to_timestamp ms = ("99:59:59", [TmpFormat.overflow_warning]))
  /\ (ms <= TmpFormat.MAX_REPRESENTABLE_TIME ->
      snd (TmpFormat.ms_to_timestamp ms) = []).
Proof.
  pose proof MAX_REPRESENTABLE_TIME_value as HM.
  destruct (Z.lt_ge_cases ms 0) as [Hneg | Hpos];
    [|destruct (Z.lt_ge_cases TmpFormat.MAX_REPRESENTABLE_TIME ms) as [Hbig | Hin]].
  - rewrite (ms_to_timestamp_negative ms Hneg).
    replace (Z.min (Z.max ms 0) TmpFormat.MAX_REPRESENTABLE_TIME) with 0 by lia.
    split_and!; try done. lia.
  - rewrite (ms_to_timestamp_overflow ms Hbig).
    replace (Z.min (Z.max ms 0) TmpFormat.MAX_REPRESENTABLE_TIME)
      with TmpFormat.MAX_REPRESENTABLE_TIME by lia.
    split_and!; try done; lia.
  - replace (Z.min (Z.max ms 0) TmpFormat.MAX_REPRESENTABLE_TIME) with ms by lia.
    rewrite (ms_to_timestamp_in_range ms) by lia.
    split_and!; try done; try lia.
    cbn [fst]. rewrite !length_append.
    rewrite !format_02d_length; [done|..];
      rewrite HM in Hin; Z.div_mod_to_equations; lia.
Qed.

Lemma ms_to_timestamp_samples :
  TmpFormat.ms_to_timestamp (-5) = ("00:00:00", [])
  /\ TmpFormat.ms_to_timestamp 400000000 = ("99:59:59", [TmpFormat.overflow_warning])
  /\ snd (TmpFormat.ms_to_timestamp 3723004) = [].
Proof.
  split_and!.
  - apply (proj1 (proj2 (proj2 (ms_to_timestamp_clamps (-5))))). lia.
  - apply (proj1 (proj2 (proj2 (proj2 (ms_to_timestamp_clamps 400000000))))).
    rewrite MAX_REPRESENTABLE_TIME_value. lia.
  - apply (proj2 (proj2 (proj2 (proj2 (ms_to_timestamp_clamps 3723004))))).
    rewrite MAX_REPRESENTABLE_TIME_value. lia.
Defined.

(** ** Probing for the TMP format *)

Lemma no_tmp_line lines :
  (forall line, In line lines -> TMP_LINE_match line = None) ->
  existsb TmpFormat.is_tmp_line lines = false.
Proof.
  induction lines as [|line lines IH]; intros H; simpl; [done|].
  unfold TmpFormat.is_tmp_line at 1. rewrite (H line) by (by left).
  apply IH. intros l Hl. apply H. by right.
Qed.

(** C7: [guess_format] returns [None], and so never "tmp", for every
    text that holds the header sentinel "[Script Info]" or "[V4+ Styles]",
    whether or not a line of it matches [TMP_LINE], and for every text
    none of whose lines matches [TMP_LINE]. *)
Theorem guess_format_none (text : string) :
  bytes_in "[Script Info]" text = true
  \/ bytes_in "[V4+ Styles]" text = true
  \/ (forall line, In line (splitlines text) -> TMP_LINE_match line = None) ->
  TmpFormat.guess_format text = None.
Proof.
  intros H. unfold TmpFormat.guess_format.
  destruct (bytes_in "[Script Info]" text) eqn:H1; [done|].
  destruct (bytes_in "[V4+ Styles]" text) eqn:H2; [done|].
  destruct H as [H | [H | H]]; [done..|].
  simpl. by rewrite no_tmp_line.
Qed.

Lemma guess_format_sentinel_wins :
  (bytes_in "[Script Info]" sentinel_and_tmp_line = true
   \/ bytes_in "[V4+ Styles]" sentinel_and_tmp_line = true
   \/ (forall line, In line (splitlines sentinel_and_tmp_line) ->
         TMP_LINE_match line = None))
  /\ existsb TmpFormat.is_tmp_line (splitlines sentinel_and_tmp_line) = true
  /\ TmpFormat.guess_format sentinel_and_tmp_line = None.
Proof.
  assert (H : bytes_in "[Script Info]" sentinel_and_tmp_line = true
              \/ bytes_in "[V4+ Styles]" sentinel_and_tmp_line = true
              \/ (forall line, In line (splitlines sentinel_and_tmp_line) ->
                    TMP_LINE_match line = None))
    by (left; reflexivity).
  split; [exact H|]. split; [reflexivity|].
  exact (guess_format_none sentinel_and_tmp_line H).
Defined.

(** Without the sentinel the same line is taken for TMP. *)
Example guess_format_tmp :
  TmpFormat.guess_format ("Script Info" +:+ newline +:+ "00:00:01:Hello") = Some "tmp".
Proof. reflexivity. Qed.

(** ** Reading TMP *)

(** C5: reading the one line "00:00:01:Hello|World" gives exactly one
    event: it starts at 1000 ms, its text is "Hello\NWorld" (the bar
    replaced by the hard line break of the document) and it ends at
    1000 + 500 + 67 * 20 = 2840 ms, 20 being the length of the line. *)
Theorem from_file_hello_world (subs : SSAFile) :
  TmpFormat.from_file ["00:00:01:Hello|World"] subs
  = (Ok tt,
     set_events
       [new_SSAEvent 1000
          (1000 + 500 + 67 * Z.of_nat (String.length "00:00:01:Hello|World"))
          (PBytes ("Hello" +:+ "\N" +:+ "World"))]
       subs)
  /\ String.length "00:00:01:Hello|World" = 20%nat
  /\ 1000 + 500 + 67 * Z.of_nat (String.length "00:00:01:Hello|World") = 2840.
Proof. split_and!; reflexivity. Qed.

(** The same line read with its line end: the line feed counts in the
    length, and is no part of the text. *)
Example from_file_hello_world_line_end (subs : SSAFile) :
  TmpFormat.from_file ["00:00:01:Hello|World" +:+ newline] subs
  = (Ok tt, set_events [new_SSAEvent 1000 2907 (PBytes "Hello\NWorld")] subs).
Proof. reflexivity. Qed.

(** *** The clock of a matched line parses again *)

Lemma digit_inv s c r :
  digit s = Some (c, r) -> s = String c r /\ is_digit c = true.
Proof.
  destruct s as [|c' t]; simpl; [done|].
  destruct (is_digit c') eqn:E; [|done]. by intros [= <- <-].
Qed.

Lemma two_digits_inv s h r :
  two_digits s = Some (h, r) ->
  exists a b, h = String a (String b "") /\ s = String a (String b r)
              /\ is_digit a = true /\ is_digit b = true.
Proof.
  unfold two_digits. intros H.
  destruct (digit s) as [[a s1]|] eqn:E1; simpl in H; [|done].
  destruct (digit s1) as [[b s2]|] eqn:E2; simpl in H; [|done].
  injection H as <- <-.
  apply digit_inv in E1 as [-> Ha]. apply digit_inv in E2 as [-> Hb].
  by exists a, b.
Qed.

Lemma one_digit_inv s h r :
  one_digit s = Some (h, r) ->
  exists a, h = String a "" /\ s = String a r /\ is_digit a = true.
Proof.
  unfold one_digit. intros H.
  destruct (digit s) as [[a s1]|] eqn:E1; simpl in H; [|done].
  injection H as <- <-. apply digit_inv in E1 as [-> Ha]. by exists a.
Qed.

Lemma lit_inv c s r : lit c s = Some r -> s = String c r.
Proof.
  destruct s as [|c' t]; simpl; [done|].
  destruct (Ascii.eqb c c') eqn:E; [|done].
  apply Ascii.eqb_eq in E as ->. by intros [= ->].
Qed.

Lemma minutes_seconds_inv s m sec r :
  minutes_seconds s = Some (m, sec, r) ->
  exists a b c d,
    m = String a (String b "") /\ sec = String c (String d "")
    /\ s = String ":" (String a (String b (String ":" (String c (String d r)))))
    /\ is_digit a = true /\ is_digit b = true
    /\ is_digit c = true /\ is_digit d = true.
Proof.
  unfold minutes_seconds. intros H.
  destruct (lit ":" s) as [s1|] eqn:E1; simpl in H; [|done].
  destruct (two_digits s1) as [[m' s2]|] eqn:E2; simpl in H; [|done].
  destruct (lit ":" s2) as [s3|] eqn:E3; simpl in H; [|done].
  destruct (two_digits s3) as [[sec' s4]|] eqn:E4; simpl in H; [|done].
  injection H as <- <- <-.
  apply lit_inv in E1 as ->. apply lit_inv in E3 as ->.
  apply two_digits_inv in E2 as (a & b & -> & -> & Ha & Hb).
  apply two_digits_inv in E4 as (c & d & -> & -> & Hc & Hd).
  by exists a, b, c, d.
Qed.

Lemma colon_is_no_digit : is_digit ":" = false.
Proof. reflexivity. Qed.

Lemma hours_inv {A} (k : string -> string -> option A) s r :
  hours k s = Some r ->
  exists h s', k h s' = Some r
    /\ ((exists x y, h = String x (String y "")
                     /\ is_digit x = true /\ is_digit y = true)
        \/ (exists x, h = String x "" /\ is_digit x = true)).
Proof.
  unfold hours. intros H.
  destruct (two_digits s) as [[h s']|] eqn:E2; simpl in H.
  - destruct (k h s') as [r'|] eqn:Ek.
    + injection H as ->. exists h, s'. split; [done|]. left.
      apply two_digits_inv in E2 as (x & y & -> & _ & Hx & Hy). by exists x, y.
    + destruct (one_digit s) as [[h1 s1]|] eqn:E1; simpl in H; [|done].
      exists h1, s1. split; [done|]. right.
      apply one_digit_inv in E1 as (x & -> & _ & Hx). by exists x.
  - destruct (one_digit s) as [[h1 s1]|] eqn:E1; simpl in H; [|done].
    exists h1, s1. split; [done|]. right.
    apply one_digit_inv in E1 as (x & -> & _ & Hx). by exists x.
Qed.

Lemma two_digits_cons a b r :
  is_digit a = true -> is_digit b = true ->
  two_digits (String a (String b r)) = Some (String a (String b ""), r).
Proof.
  intros Ha Hb. unfold two_digits, digit.
  rewrite Ha. cbn [mbind option_bind]. by rewrite Hb.
Qed.

Lemma two_digits_colon a r : two_digits (String a (String ":" r)) = None.
Proof. unfold two_digits, digit. by destruct (is_digit a). Qed.

Lemma one_digit_cons a r :
  is_digit a = true -> one_digit (String a r) = Some (String a "", r).
Proof. intros Ha. unfold one_digit, digit. by rewrite Ha. Qed.

Lemma minutes_seconds_cons a b c d r :
  is_digit a = true -> is_digit b = true ->
  is_digit c = true -> is_digit d = true ->
  minutes_seconds
    (String ":" (String a (String b (String ":" (String c (String d r))))))
  = Some (String a (String b ""), String c (String d ""), r).
Proof.
  intros Ha Hb Hc Hd. unfold minutes_seconds. cbn [lit Ascii.eqb Bool.eqb mbind option_bind].
  rewrite (two_digits_cons a b) by done. cbn [lit Ascii.eqb Bool.eqb mbind option_bind].
  by rewrite (two_digits_cons c d) by done.
Qed.

(** The first group of a match of [TMP_LINE] matches [TIMESTAMP_SHORT]. *)
Lemma TMP_LINE_clock line mt :
  TMP_LINE_match line = Some mt ->
  exists groups, time_patterns.TIMESTAMP_SHORT_match (group1 mt) = Some groups.
Proof.
  unfold TMP_LINE_match. intros H.
  apply hours_inv in H as (h & s & Hs & Hh).
  unfold TMP_LINE_after_hours in Hs.
  destruct (minutes_seconds s) as [[[m sec] s1]|] eqn:E1; simpl in Hs; [|done].
  destruct (lit ":" s1) as [s2|] eqn:E2; simpl in Hs; [|done].
  destruct (span not_newline s2) as [body rest].
  destruct (String.eqb body ""); [done|]. injection Hs as <-.
  apply minutes_seconds_inv in E1 as (a & b & c & d & -> & -> & _ & Ha & Hb & Hc & Hd).
  unfold time_patterns.TIMESTAMP_SHORT_match, hours,
    time_patterns.TIMESTAMP_SHORT_after_hours.
  destruct Hh as [(x & y & -> & Hx & Hy) | (x & -> & Hx)]; cbn [group1].
  - change (String x (String y "") +:+ ":" +:+ String a (String b "")
              +:+ ":" +:+ String c (String d ""))
      with (String x (String y (String ":" (String a (String b (String ":" (String c (String d "")))))))).
    rewrite (two_digits_cons x y) by done. cbn [mbind option_bind].
    rewrite (minutes_seconds_cons a b c d) by done. simpl. eauto.
  - change (String x "" +:+ ":" +:+ String a (String b "")
              +:+ ":" +:+ String c (String d ""))
      with (String x (String ":" (String a (String b (String ":" (String c (String d ""))))))).
    rewrite two_digits_colon. cbn [mbind option_bind].
    rewrite (one_digit_cons x) by done. cbn [mbind option_bind].
    rewrite (minutes_seconds_cons a b c d) by done. simpl. eauto.
Qed.

Lemma read_lines_total fp : forall events,
  exists evs, TmpFormat.read_lines events fp = Ok evs.
Proof.
  induction fp as [|line fp IH]; intros events; simpl; [by eexists|].
  destruct (TMP_LINE_match line) as [mt|] eqn:E; [|apply IH].
  destruct (TMP_LINE_clock line mt E) as [groups ->]. apply IH.
Qed.

(** *** The repair pass *)

(** After [k] rounds the first [k] events are clamped against the start
    of their successors and the others are untouched. *)
Lemma repair_rounds_ok (events : list SSAEvent) (k : nat) :
  (k <= length events - 1)%nat ->
  exists evs,
    repair_rounds events k = Ok evs
    /\ length evs = length events
    /\ (forall j a b, (j < k)%nat ->
          events !! j = Some a -> events !! S j = Some b ->
          evs !! j = Some (set_end (Z.min (end_ a) (start b)) a))
    /\ (forall j, (k <= j)%nat -> evs !! j = events !! j).
Proof.
  unfold repair_rounds. induction k as [|k IH]; intros Hk.
  - exists events. split_and!; [done..| |done]. intros; lia.
  - destruct IH as (evs & Hevs & Hlen & Hdone & Hrest); [lia|].
    rewrite seq_S, foldl_snoc, Hevs. simpl. unfold TmpFormat.repair_step.
    destruct (lookup_lt_is_Some_2 events k) as [a Ha]; [lia|].
    destruct (lookup_lt_is_Some_2 events (S k)) as [b Hb]; [lia|].
    rewrite (Hrest k), (Hrest (S k)), Ha, Hb by lia.
    eexists. split_and!; [done| | |].
    + by rewrite length_insert.
    + intros j a' b' Hj Ha' Hb'. destruct (decide (j = k)) as [->|Hne].
      * rewrite list_lookup_insert_eq by lia. congruence.
      * rewrite list_lookup_insert_ne by done. apply Hdone; [lia|done..].
    + intros j Hj. rewrite list_lookup_insert_ne by lia. apply Hrest. lia.
Qed.

Lemma repair_overlaps_ok (events : list SSAEvent) :
  exists evs,
    TmpFormat.repair_overlaps events = Ok evs
    /\ length evs = length events
    /\ (forall j a b,
          events !! j = Some a -> events !! S j = Some b ->
          evs !! j = Some (set_end (Z.min (end_ a) (start b)) a))
    /\ (forall j a, events !! j = Some a -> events !! S j = None ->
          evs !! j = Some a).
Proof.
  destruct (repair_rounds_ok events (length events - 1)) as
    (evs & Hevs & Hlen & Hdone & Hrest); [done|].
  exists evs. split_and!; [done..| |].
  - intros j a b Ha Hb. apply Hdone; [|done..].
    apply lookup_lt_Some in Hb. lia.
  - intros j a Ha Hb. rewrite Hrest; [done|].
    apply lookup_ge_None in Hb. lia.
Qed.

(** C2: [from_file] returns for every file, and in the events it leaves
    in the document every event ends no later than the next one starts.
    The events are those read from the lines, in order, after one pass
    from left to right that sets the end of every event but the last to
    the smaller of its guessed end and the start of the next event. *)
Theorem from_file_no_overlap (fp : list string) (subs : SSAFile) :
  exists evs subs',
    TmpFormat.read_lines [] fp = Ok evs
    /\ TmpFormat.from_file fp subs = (Ok tt, subs')
    /\ length (events subs') = length evs
    /\ (forall i a b, evs !! i = Some a -> evs !! S i = Some b ->
          events subs' !! i = Some (set_end (Z.min (end_ a) (start b)) a))
    /\ (forall i a, evs !! i = Some a -> evs !! S i = None ->
          events subs' !! i = Some a)
    /\ (forall i e1 e2,
          events subs' !! i = Some e1 -> events subs' !! S i = Some e2 ->
          end_ e1 <= start e2).
Proof.
  destruct (read_lines_total fp []) as [evs Hread].
  destruct (repair_overlaps_ok evs) as (evs' & Hrep & Hlen & Hclamp & Hlast).
  exists evs, (set_events evs' subs).
  split_and!; [done| |done..|].
  - unfold TmpFormat.from_file. rewrite Hread. simpl. by rewrite Hrep.
  - simpl. intros i e1 e2 H1 H2.
    destruct (lookup_lt_is_Some_2 evs i) as [a Ha];
      [apply lookup_lt_Some in H1; lia|].
    destruct (lookup_lt_is_Some_2 evs (S i)) as [b Hb];
      [apply lookup_lt_Some in H2; lia|].
    rewrite (Hclamp i a b Ha Hb) in H1. injection H1 as <-.
    assert (start e2 = start b) as ->.
    { destruct (evs !! S (S i)) as [c|] eqn:Hc.
      - rewrite (Hclamp (S i) b c Hb Hc) in H2. by injection H2 as <-.
      - rewrite (Hlast (S i) b Hb Hc) in H2. by injection H2 as <-. }
    simpl. lia.
Qed.

(** Two lines one second apart: the guessed end of the first, 2237 ms,
    is cut back to the start of the second. *)
Example from_file_repairs_overlap (subs : SSAFile) :
  TmpFormat.from_file ["0:00:01:One"; "0:00:02:Two"] subs
  = (Ok tt,
     set_events [new_SSAEvent 1000 2000 (PBytes "One");
                 new_SSAEvent 2000 3237 (PBytes "Two")] subs).
Proof. reflexivity. Qed.

(** ** Writing TMP *)

Lemma render_fragment_bytes apply_styles b sty :
  exists x, TmpFormat.render_fragment apply_styles (PBytes b) sty = Ok x.
Proof. unfold TmpFormat.render_fragment. simpl. by eexists. Qed.

Lemma collect_fragments_bytes apply_styles fragments : forall body skip,
  Forall (fun f => is_bytes (fst f) = true) fragments ->
  exists body',
    TmpFormat.collect_fragments apply_styles body skip fragments
    = Ok (body', skip || existsb (fun f => drawing (snd f)) fragments).
Proof.
  induction fragments as [|[fragment sty] fragments IH]; intros body skip Hall.
  - exists body. simpl. by rewrite orb_false_r.
  - inversion Hall as [|? ? Hb Hrest]; subst. simpl in Hb.
    destruct fragment as [s|b]; [done|].
    destruct (render_fragment_bytes apply_styles b sty) as [x Hx].
    cbn [TmpFormat.collect_fragments]. rewrite Hx. cbn [bind].
    destruct (IH (body ++ [x]) (if drawing sty then true else skip) Hrest)
      as [body' ->].
    exists body'. do 2 f_equal. cbn [existsb snd].
    destruct (drawing sty), skip; done.
Qed.

(** C1, as the code has it: when the fragments of an event's text are
    byte strings and at least one of them has a resolved style with the
    drawing flag set, the text prepared for the event is the empty
    text: the fragments that are no drawings are dropped with it. *)
Theorem drawing_fragment_drops_whole_text
    (parse_tags : pystr -> SSAStyle -> gmap string SSAStyle -> list (pystr * SSAStyle))
    (apply_styles : bool) (subs : SSAFile) (text : pystr) (style : SSAStyle) :
  Forall (fun f => is_bytes (fst f) = true) (parse_tags text style (styles subs)) ->
  Exists (fun f => drawing (snd f) = true) (parse_tags text style (styles subs)) ->
  TmpFormat.to_file_prepare_text parse_tags apply_styles subs text style
  = Ok (PStr "").
Proof.
  intros Hbytes Hdrawing.
  unfold TmpFormat.to_file_prepare_text, TmpFormat.prepare_fragments.
  destruct (collect_fragments_bytes apply_styles _ [] false Hbytes) as [body ->].
  cbn [bind orb].
  assert (existsb (fun f => drawing (snd f)) (parse_tags text style (styles subs))
          = true) as ->; [|done].
  apply existsb_exists. apply Exists_exists in Hdrawing as (f & Hin & Hf).
  exists f. split; [|done]. by apply list_elem_of_In.
Qed.

Lemma sample_drawing_drops_whole_text :
  Forall (fun f => is_bytes (fst f) = true)
    (sample_parse_tags (PBytes "A{\p1}B") DEFAULT_STYLE (styles sample_subs))
  /\ Exists (fun f => drawing (snd f) = true)
       (sample_parse_tags (PBytes "A{\p1}B") DEFAULT_STYLE (styles sample_subs))
  /\ TmpFormat.to_file_prepare_text sample_parse_tags true sample_subs
       (PBytes "A{\p1}B") DEFAULT_STYLE
     = Ok (PStr "").
Proof.
  assert (H1 : Forall (fun f => is_bytes (fst f) = true)
                 (sample_parse_tags (PBytes "A{\p1}B") DEFAULT_STYLE
                    (styles sample_subs)))
    by (repeat constructor).
  assert (H2 : Exists (fun f => drawing (snd f) = true)
                 (sample_parse_tags (PBytes "A{\p1}B") DEFAULT_STYLE
                    (styles sample_subs)))
    by (right; left; reflexivity).
  split; [exact H1|]. split; [exact H2|].
  exact (drawing_fragment_drops_whole_text sample_parse_tags true sample_subs
           (PBytes "A{\p1}B") DEFAULT_STYLE H1 H2).
Defined.

(** C1, as the specification words it, fails: of the two fragments of
    "A{\p1}B" only "B" is a drawing, and the prepared text is empty
    all the same. *)
Lemma fragment_beside_drawing_is_lost :
  ~ empty_only_when_all_dropped sample_parse_tags true sample_subs
      (PBytes "A{\p1}B") DEFAULT_STYLE.
Proof.
  unfold empty_only_when_all_dropped. intros H.
  assert (E : TmpFormat.to_file_prepare_text sample_parse_tags true sample_subs
                (PBytes "A{\p1}B") DEFAULT_STYLE = Ok (PStr ""))
    by reflexivity.
  specialize (H E). inversion H as [|? ? Hd _]. discriminate Hd.
Qed.

(** The line of a visible event is never assembled: [start] is a str,
    and [start + b":"] raises. A document with a visible event is
    written as nothing at all. *)
Lemma to_file_raises_on_visible_event parse_tags apply_styles subs :
  filter (fun line => is_comment line = false) (events subs) <> [] ->
  exists e out,
    TmpFormat.to_file parse_tags apply_styles subs = (Raise e, out)
    /\ TmpFormat.written out = "".
Proof.
  unfold TmpFormat.to_file.
  destruct (filter _ (events subs)) as [|line rest]; [done|]. intros _.
  cbn [TmpFormat.write_lines].
  destruct (TmpFormat.ms_to_timestamp (start line)) as [stamp warned].
  destruct (TmpFormat.to_file_prepare_text parse_tags apply_styles subs
              (text line) _) as [prepared|e]; cbn [bind py_add]; by eexists _, _.
Qed.

(** * Further properties *)

(** ** Retiming, continued *)




Lemma shift_shared_lookup delta refs :
  NoDup refs ->
  forall heap r,
    shift_shared delta refs heap !! r
    = if bool_decide (r ∈ refs) then shift_line delta <$> heap !! r
      else heap !! r.
Proof.
  induction refs as [|a refs IH]; intros Hnd heap r.
  - by rewrite bool_decide_false by apply not_elem_of_nil.
  - apply NoDup_cons in Hnd as [Ha Hnd]. rewrite shift_shared_cons, (IH Hnd).
    destruct (decide (r = a)) as [->|Hne].
    + rewrite bool_decide_false by done.
      rewrite bool_decide_true by apply list_elem_of_here.
      apply list_lookup_alter_eq.
    + rewrite list_lookup_alter_ne by done.
      destruct (decide (r ∈ refs)) as [Hin|Hin].
      * rewrite !bool_decide_true; [done| |done]. by apply list_elem_of_further.
      * rewrite !bool_decide_false; [done| |done].
        intros [?|?]%elem_of_cons; done.
Qed.

(** X2: on a document that lists no event object twice, the loop of
    [shift] keeps the timing relations: if no event ended after the next
    one started, that is still so after the shift, and every listed event
    that started no later than it ended still does. *)
Theorem shift_shared_keeps_timing
    (delta : Z) (refs : list nat) (heap : list SSAEvent) :
  NoDup refs ->
  (no_overlap_shared refs heap ->
   no_overlap_shared refs (shift_shared delta refs heap))
  /\ ((forall r e, r ∈ refs -> heap !! r = Some e -> start e <= end_ e) ->
      forall r e, r ∈ refs -> shift_shared delta refs heap !! r = Some e ->
                  start e <= end_ e).
Proof.
  intros Hnd. split.
  - intros Hno i r1 r2 e1 e2 Hr1 Hr2.
    rewrite !(shift_shared_lookup delta refs Hnd).
    rewrite !bool_decide_true by (by eapply list_elem_of_lookup_2).
    destruct (heap !! r1) as [a|] eqn:Ha; [|done].
    destruct (heap !! r2) as [b|] eqn:Hb; [|done].
    intros [= <-] [= <-]. specialize (Hno i r1 r2 a b Hr1 Hr2 Ha Hb).
    destruct a, b. simpl in *. lia.
  - intros Hall r e Hr. rewrite (shift_shared_lookup delta refs Hnd).
    rewrite bool_decide_true by done.
    destruct (heap !! r) as [a|] eqn:Ha; [|done].
    intros [= <-]. specialize (Hall r a Hr Ha). destruct a. simpl in *. lia.
Qed.

Lemma two_events_no_overlap :
  no_overlap_shared [0%nat; 1%nat]
    [sample_event 0 1000 "Default"; sample_event 1000 2500 "Sign"].
Proof.
  intros [|[|i]] r1 r2 e1 e2; simpl; try done.
  intros [= <-] [= <-]. simpl. intros [= <-] [= <-]. simpl. lia.
Qed.

Lemma shift_shared_keeps_timing_sample :
  NoDup [0%nat; 1%nat]
  /\ no_overlap_shared [0%nat; 1%nat]
       (shift_shared 2500 [0%nat; 1%nat]
          [sample_event 0 1000 "Default"; sample_event 1000 2500 "Sign"]).
Proof.
  assert (Hnd : NoDup [0%nat; 1%nat]).
  { apply NoDup_cons. split; [by intros [?|?%elem_of_nil]%elem_of_cons|].
    apply NoDup_cons. split; [apply not_elem_of_nil|apply NoDup_nil_2]. }
  split; [exact Hnd|].
  exact (proj1 (shift_shared_keeps_timing 2500 [0%nat; 1%nat] _ Hnd)
           two_events_no_overlap).
Defined.

(** An event object listed twice is moved twice: the list [a, b, a]
    has no overlap before the shift and one after it. *)
Example shift_shared_listed_twice :
  no_overlap_shared [0%nat; 1%nat; 0%nat]
    [sample_event 10 10 "Default"; sample_event 10 10 "Sign"]
  /\ shift_shared 5 [0%nat; 1%nat; 0%nat]
       [sample_event 10 10 "Default"; sample_event 10 10 "Sign"]
     = [sample_event 20 20 "Default"; sample_event 15 15 "Sign"]
  /\ ~ no_overlap_shared [0%nat; 1%nat; 0%nat]
         [sample_event 20 20 "Default"; sample_event 15 15 "Sign"].
Proof.
  split_and!.
  - intros [|[|[|i]]] r1 r2 e1 e2; simpl; try done;
      intros [= <-] [= <-]; simpl; intros [= <-] [= <-]; simpl; lia.
  - reflexivity.
  - intros H. specialize (H 0%nat 0%nat 1%nat _ _ eq_refl eq_refl eq_refl eq_refl).
    simpl in H. lia.
Qed.

Lemma transform_lines_content round_scaled ratio lines :
  Forall2 same_content lines (snd (transform_lines round_scaled ratio lines)).
Proof.
  induction lines as [|line lines IH]; simpl; [constructor|].
  destruct (round_scaled (start line) ratio) as [v|e]; simpl.
  - destruct (round_scaled (end_ line) ratio) as [w|e]; simpl.
    + destruct (transform_lines round_scaled ratio lines) as [r rest]. simpl in *.
      constructor; [done|exact IH].
    + constructor; [done|]. apply Forall2_same_length_lookup.
      split; [done|]. intros i x y Hx Hy. by simplify_eq.
  - constructor; [done|]. apply Forall2_same_length_lookup.
    split; [done|]. intros i x y Hx Hy. by simplify_eq.
Qed.

(** X3: whatever the frame rates and however the call ends,
    [transform_framerate] touches nothing but starts and ends: styles,
    info, fps and format are as before, the events are as many as before,
    and every event keeps its text, style and comment flag. *)
Theorem transform_framerate_keeps_content
    true_div round_scaled (in_fps out_fps : number) (subs : SSAFile) :
  let subs' := snd (transform_framerate true_div round_scaled in_fps out_fps subs) in
  styles subs' = styles subs /\ info subs' = info subs
  /\ fps subs' = fps subs /\ format subs' = format subs
  /\ Forall2 same_content (events subs) (events subs').
Proof.
  assert (Hid : Forall2 same_content (events subs) (events subs)).
  { apply Forall2_same_length_lookup. split; [done|].
    intros i x y Hx Hy. by simplify_eq. }
  unfold transform_framerate.
  destruct (le_zero in_fps || le_zero out_fps); [by simpl|].
  destruct (true_div in_fps out_fps) as [ratio|e]; [|by simpl].
  pose proof (transform_lines_content round_scaled ratio (events subs)) as H.
  destruct (transform_lines round_scaled ratio (events subs)) as [r lines].
  by simpl in *.
Qed.

(** The loop over shared events goes on from the heap its first
    rounds left. *)
Lemma transform_shared_app round_scaled ratio done : forall heap heap1 rest,
  transform_shared round_scaled ratio done heap = (Ok tt, heap1) ->
  transform_shared round_scaled ratio (done ++ rest) heap
  = transform_shared round_scaled ratio rest heap1.
Proof.
  induction done as [|r done IH]; intros heap heap1 rest H.
  - by injection H as <-.
  - cbn [app transform_shared] in *.
    destruct (heap !! r) as [line|]; [|by apply IH].
    destruct (round_scaled (start line) ratio) as [v|e]; [|done].
    destruct (round_scaled (end_ (set_start v line)) ratio) as [w|e]; [|done].
    by apply IH.
Qed.

(** The loop changes no object it has no reference to. *)
Lemma transform_shared_untouched round_scaled ratio refs :
  forall heap outcome heap' a,
    transform_shared round_scaled ratio refs heap = (outcome, heap') ->
    a ∉ refs -> heap' !! a = heap !! a.
Proof.
  induction refs as [|r refs IH]; intros heap outcome heap' a H Ha.
  - by injection H as _ <-.
  - apply not_elem_of_cons in Ha as [Hne Ha]. cbn [transform_shared] in H.
    destruct (heap !! r) as [line|]; [|by eapply IH].
    destruct (round_scaled (start line) ratio) as [v|e];
      [|by injection H as _ <-].
    destruct (round_scaled (end_ (set_start v line)) ratio) as [w|e].
    + rewrite (IH _ _ _ _ H Ha). by rewrite !list_lookup_insert_ne by congruence.
    + injection H as _ <-. by rewrite list_lookup_insert_ne by congruence.
Qed.

(** X4: [transform_framerate] is not atomic. When the frame rates pass
    the test and the rounding of an event's start raises, the call ends
    with that exception and with the heap as the rounds over the earlier
    events left it: what they changed stays changed, nothing is rolled
    back, and only objects listed among those earlier events have
    changed. *)
Theorem transform_framerate_fails_midway
    true_div round_scaled (in_fps out_fps ratio : number)
    (done : list nat) (r : nat) (rest : list nat)
    (heap heap1 : list SSAEvent) (line : SSAEvent) (e : exception) :
  le_zero in_fps = false -> le_zero out_fps = false ->
  true_div in_fps out_fps = Ok ratio ->
  transform_shared round_scaled ratio done heap = (Ok tt, heap1) ->
  heap1 !! r = Some line ->
  round_scaled (start line) ratio = Raise e ->
  transform_framerate_shared true_div round_scaled in_fps out_fps
    (done ++ r :: rest) heap
  = (Raise e, heap1)
  /\ forall a, a ∉ done -> heap1 !! a = heap !! a.
Proof.
  intros Hin Hout Hdiv Hdone Hline Hraise. split.
  - unfold transform_framerate_shared. rewrite Hin, Hout, Hdiv. cbn [orb].
    rewrite (transform_shared_app _ _ _ _ _ _ Hdone).
    cbn [transform_shared]. by rewrite Hline, Hraise.
  - intros a Ha. by eapply transform_shared_untouched.
Qed.

Lemma transform_framerate_fails_midway_sample :
  transform_framerate_shared sample_true_div sample_round_scaled
    (PyInt 50) (PyInt 25) [0%nat; 1%nat]
    [sample_event 10 20 "Default"; sample_event 1000000 1000020 "Sign"]
  = (Raise OverflowError,
     [sample_event 20 40 "Default"; sample_event 1000000 1000020 "Sign"]).
Proof.
  exact (proj1 (transform_framerate_fails_midway
           sample_true_div sample_round_scaled (PyInt 50) (PyInt 25) (PyInt 2)
           [0%nat] 1%nat []
           [sample_event 10 20 "Default"; sample_event 1000000 1000020 "Sign"]
           [sample_event 20 40 "Default"; sample_event 1000000 1000020 "Sign"]
           (sample_event 1000000 1000020 "Sign") OverflowError
           eq_refl eq_refl eq_refl eq_refl eq_refl eq_refl)).
Defined.

(** ** Renaming a style, continued *)

Lemma set_style_same line : set_style (style line) line = line.
Proof. by destruct line. Qed.

Lemma rename_line_back old_name new_name line :
  old_name <> new_name ->
  rename_line new_name old_name (rename_line old_name new_name line)
  = rename_line new_name old_name line.
Proof.
  intros Hne. unfold rename_line.
  destruct (String.eqb (style line) old_name) eqn:E1.
  - apply String.eqb_eq in E1. cbn [style set_style].
    rewrite String.eqb_refl.
    rewrite (proj2 (String.eqb_neq (style line) new_name)) by congruence.
    destruct line; simpl in *. by subst.
  - done.
Qed.

Lemma rename_line_absent old_name new_name line :
  style line <> old_name -> rename_line old_name new_name line = line.
Proof.
  intros H. unfold rename_line.
  by rewrite (proj2 (String.eqb_neq _ _) H).
Qed.

(** X5: renaming a style and renaming it back, both calls succeeding,
    gives every name of the style table the record it had at the start,
    and no name a record it had not (the order of the keys aside, each
    rename putting its new key last); info, fps and format are untouched.
    Of the events only those that named the new style before it existed
    have changed: they now name the old one. So the events are the
    original ones when none of them named the new style. *)
Theorem rename_style_there_and_back
    (subs subs1 subs2 : SSAFile) (old_name new_name : string) :
  rename_style old_name new_name subs = (Ok tt, subs1) ->
  rename_style new_name old_name subs1 = (Ok tt, subs2) ->
  (forall name, styles subs2 !! name = styles subs !! name)
  /\ info subs2 = info subs
  /\ fps subs2 = fps subs /\ format subs2 = format subs
  /\ events subs2 = map (rename_line new_name old_name) (events subs)
  /\ (Forall (fun line => style line <> new_name) (events subs) ->
      events subs2 = events subs).
Proof.
  intros H1 H2.
  destruct (rename_style_cases subs old_name new_name)
    as [[_ E] | [(_ & _ & E) | [(_ & _ & _ & E) | (sty & Hold & Hnew & _ & E)]]];
    rewrite E in H1; inversion H1 as [Hsubs1]; clear H1 E.
  assert (Hne : old_name <> new_name) by (intros ->; congruence).
  destruct (rename_style_cases subs1 new_name old_name)
    as [[_ E] | [(_ & _ & E) | [(_ & _ & _ & E) | (sty' & Hold' & _ & _ & E)]]];
    rewrite E in H2; inversion H2 as [Hsubs2]; clear H2 E.
  rewrite <- Hsubs1 in Hold'. cbn [styles] in Hold'.
  rewrite lookup_delete_ne, lookup_insert_eq in Hold' by done.
  injection Hold' as <-.
  assert (Hstyles : forall k,
    (delete new_name (<[old_name := sty]> (styles subs1)) : gmap string SSAStyle)
      !! k = styles subs !! k).
  { rewrite <- Hsubs1. cbn [styles]. intros k.
    destruct (decide (k = new_name)) as [->|Hk1].
    - by rewrite lookup_delete_eq, Hnew.
    - rewrite lookup_delete_ne by done.
      destruct (decide (k = old_name)) as [->|Hk2].
      + by rewrite lookup_insert_eq, Hold.
      + rewrite lookup_insert_ne, lookup_delete_ne, lookup_insert_ne by done.
        done. }
  assert (Hevents :
    map (rename_line new_name old_name) (events subs1)
    = map (rename_line new_name old_name) (events subs)).
  { rewrite <- Hsubs1. cbn [events]. rewrite map_map. apply map_ext.
    intros line. by apply rename_line_back. }
  cbn [styles info fps format events]. rewrite Hevents.
  split_and!.
  - exact Hstyles.
  - by rewrite <- Hsubs1.
  - by rewrite <- Hsubs1.
  - by rewrite <- Hsubs1.
  - done.
  - generalize (events subs). clear. intros lines Hnone.
    induction Hnone as [|line rest Hline _ IH]; [done|].
    simpl. by rewrite IH, rename_line_absent.
Qed.

Lemma rename_style_there_and_back_sample :
  events (snd (rename_style "Foo" "Default"
                 (snd (rename_style "Default" "Foo" sample_subs))))
  = events sample_subs.
Proof.
  assert (H1 : rename_style "Default" "Foo" sample_subs
               = (Ok tt, snd (rename_style "Default" "Foo" sample_subs)))
    by (vm_compute; reflexivity).
  assert (H2 : rename_style "Foo" "Default"
                 (snd (rename_style "Default" "Foo" sample_subs))
               = (Ok tt, snd (rename_style "Foo" "Default"
                                (snd (rename_style "Default" "Foo" sample_subs)))))
    by (vm_compute; reflexivity).
  assert (Hnone : Forall (fun line => style line <> "Foo") (events sample_subs))
    by (repeat constructor; discriminate).
  exact (proj2 (proj2 (proj2 (proj2 (proj2
           (rename_style_there_and_back sample_subs _ _ "Default" "Foo" H1 H2)))))
           Hnone).
Defined.

(** The order of the keys is not restored: the style renamed there and
    back is the last of the table. *)
Example rename_style_key_order :
  rename_keys "Foo" "Default" (rename_keys "Default" "Foo" ["Default"; "Sign"])
  = ["Sign"; "Default"].
Proof. reflexivity. Qed.

(** X6: a successful [rename_style] keeps the number of styles. *)
Theorem rename_style_keeps_size (subs subs' : SSAFile) (old_name new_name : string) :
  rename_style old_name new_name subs = (Ok tt, subs') ->
  size (styles subs') = size (styles subs).
Proof.
  intros H.
  destruct (rename_style_cases subs old_name new_name)
    as [[_ E] | [(_ & _ & E) | [(_ & _ & _ & E) | (sty & Hold & Hnew & _ & E)]]];
    rewrite E in H; inversion H as [Hsubs]; clear H E.
  assert (Hne : new_name <> old_name) by (intros ->; congruence).
  cbn [styles].
  rewrite map_size_delete_Some
    by (rewrite lookup_insert_ne by done; by eexists).
  rewrite map_size_insert_None by done. done.
Qed.

Lemma rename_style_keeps_size_sample :
  size (styles (snd (rename_style "Default" "Foo" sample_subs)))
  = size (styles sample_subs).
Proof.
  apply (rename_style_keeps_size sample_subs _ "Default" "Foo").
  vm_compute; reflexivity.
Defined.

(** ** Importing styles *)

Lemma import_fold (overwrite : bool) (items : list (string * SSAStyle)) :
  NoDup items.*1 ->
  forall m : gmap string SSAStyle,
    foldl (import_style overwrite) m items
    = if overwrite then list_to_map items ∪ m else m ∪ list_to_map items.
Proof.
  induction items as [|[n s] items IH]; intros Hnd m.
  - simpl. destruct overwrite; [by rewrite (left_id_L ∅ (∪))|
                                by rewrite (right_id_L ∅ (∪))].
  - apply NoDup_cons in Hnd as [Hn Hnd].
    assert (Hfresh : (list_to_map items : gmap string SSAStyle) !! n = None)
      by (by apply not_elem_of_list_to_map_1).
    cbn [foldl]. rewrite (IH Hnd). cbn [list_to_map foldr curry fst snd].
    unfold import_style. destruct overwrite.
    + rewrite orb_true_r. apply map_eq. intros k.
      rewrite !lookup_union. destruct (decide (k = n)) as [->|Hk].
      * rewrite !lookup_insert_eq, Hfresh.
        by destruct (m !! n).
      * by rewrite !lookup_insert_ne by done.
    + rewrite orb_false_r. apply map_eq. intros k.
      destruct (m !! n) as [s'|] eqn:Hm.
      * rewrite bool_decide_true by (by eexists). cbn [negb].
        rewrite !lookup_union. destruct (decide (k = n)) as [->|Hk].
        -- rewrite lookup_insert_eq, Hm, Hfresh. done.
        -- by rewrite lookup_insert_ne by done.
      * rewrite bool_decide_false by (by intros [? ?]). cbn [negb].
        rewrite !lookup_union. destruct (decide (k = n)) as [->|Hk].
        -- rewrite !lookup_insert_eq, Hm, Hfresh. done.
        -- by rewrite !lookup_insert_ne by done.
Qed.

(** The table [import_styles] leaves is the union of the two tables, the
    other one first under [overwrite]. *)
Lemma import_styles_is_union (self other : SSAFile) (overwrite : bool) :
  import_styles (SSAFile_object other) overwrite self
  = (Ok tt,
     set_styles
       (if overwrite then styles other ∪ styles self
        else styles self ∪ styles other)
       self).
Proof.
  unfold import_styles. do 2 f_equal.
  rewrite import_fold by apply NoDup_fst_map_to_list.
  by rewrite list_to_map_to_list.
Qed.

(** X7: [import_styles] from a document never raises and leaves events,
    info, fps and format alone. Afterwards a name has a style when it had
    one in either document: the other document's record when only that
    one had the name, the own record when only this one had it, and, when
    both had it, the other's under [overwrite] and the own one
    otherwise. *)
Theorem import_styles_lookup (self other : SSAFile) (overwrite : bool) :
  exists self',
    import_styles (SSAFile_object other) overwrite self = (Ok tt, self')
    /\ events self' = events self /\ info self' = info self
    /\ fps self' = fps self /\ format self' = format self
    /\ forall name,
         styles self' !! name
         = match styles other !! name, styles self !! name with
           | Some theirs, Some ours => Some (if overwrite then theirs else ours)
           | Some theirs, None => Some theirs
           | None, ours => ours
           end.
Proof.
  eexists. rewrite import_styles_is_union. split; [reflexivity|].
  cbn [events info fps format styles set_styles]. split_and!; try done.
  intros name. destruct overwrite; rewrite lookup_union;
    by destruct (styles other !! name), (styles self !! name).
Qed.

(** X8: importing is idempotent, and importing a document's own styles
    changes nothing: a second import of the same document leaves what the
    first one left. *)
Theorem import_styles_idempotent (self other : SSAFile) (overwrite : bool) :
  import_styles (SSAFile_object other) overwrite
    (snd (import_styles (SSAFile_object other) overwrite self))
  = import_styles (SSAFile_object other) overwrite self
  /\ import_styles (SSAFile_object self) overwrite self = (Ok tt, self).
Proof.
  rewrite !import_styles_is_union. split.
  - f_equal. unfold set_styles. cbn [snd events styles info fps format]. f_equal.
    destruct overwrite.
    + by rewrite (assoc_L (∪)), (idemp_L (∪)).
    + by rewrite <- (assoc_L (∪)), (idemp_L (∪)).
  - f_equal. destruct self as [evs sts inf f fmt]. unfold set_styles.
    cbn [events styles info fps format]. f_equal.
    destruct overwrite; apply (idemp_L (∪)).
Qed.

(** ** Inserting an event *)

(** X9: [insert(index, event)] with an index that fits a C [ssize_t],
    from -2^63 to 2^63 - 1, never raises: the document has one event
    more, the new event sits at a position [k] within the list, and the
    events that were there are all kept, in their order. The position is
    the index itself from 0 to the length, the length for a larger index,
    the length plus the index from minus the length to -1, and 0 for a
    smaller index. *)
Theorem insert_keeps_events (index : Z) (event : SSAEvent) (self : SSAFile) :
  - 2 ^ 63 <= index < 2 ^ 63 ->
  exists k self',
    insert index (SSAEvent_object event) self = (Ok tt, self')
    /\ (k <= len self)%nat
    /\ len self' = S (len self)
    /\ events self' !! k = Some event
    /\ delete k (events self') = events self
    /\ styles self' = styles self /\ info self' = info self
    /\ (0 <= index <= Z.of_nat (len self) -> k = Z.to_nat index)
    /\ (Z.of_nat (len self) <= index -> k = len self)
    /\ (- Z.of_nat (len self) <= index < 0 ->
        k = Z.to_nat (Z.of_nat (len self) + index))
    /\ (index <= - Z.of_nat (len self) -> k = O).
Proof.
  intros Hfit.
  set (k := insert_position index (length (events self))).
  assert (Hk : (k <= length (events self))%nat)
    by (unfold k, insert_position; destruct (index <? 0) eqn:E;
        [apply Z.ltb_lt in E|]; lia).
  exists k, (set_events (take k (events self) ++ event :: drop k (events self)) self).
  unfold len, insert.
  assert (fits_ssize_t index = true) as ->.
  { unfold fits_ssize_t. apply andb_true_iff. split; [apply Z.leb_le|apply Z.ltb_lt]; lia. }
  fold k. cbn [events set_events styles info].
  split_and!; try done.
  - rewrite length_app, length_take_le by done. cbn [length].
    rewrite length_drop. lia.
  - rewrite <- (length_take_le (events self) k) at 1 by done.
    apply list_lookup_middle. done.
  - rewrite <- (length_take_le (events self) k) at 1 by done.
    rewrite delete_middle. apply take_drop.
  - intros H. unfold k, insert_position.
    rewrite (proj2 (Z.ltb_ge index 0)) by lia. lia.
  - intros H. unfold k, insert_position.
    rewrite (proj2 (Z.ltb_ge index 0)) by lia. lia.
  - intros H. unfold k, insert_position.
    rewrite (proj2 (Z.ltb_lt index 0)) by lia. lia.
  - intros H. unfold k, insert_position.
    destruct (index <? 0) eqn:E; [lia|]. apply Z.ltb_ge in E. lia.
Qed.

Lemma insert_keeps_events_sample :
  insert (-1) (SSAEvent_object (sample_event 5 6 "Sign")) sample_subs
  = (Ok tt,
     set_events [sample_event 0 1500 "Default"; sample_event 1000 2500 "Sign";
                 sample_event 5 6 "Sign"; sample_event 3000 4000 "Default"]
       sample_subs).
Proof.
  destruct (insert_keeps_events (-1) (sample_event 5 6 "Sign") sample_subs)
    as (k & self' & H & _); [lia|].
  reflexivity.
Defined.

(** An index beyond the [ssize_t] raises OverflowError and leaves the
    document as it was. *)
Example insert_index_too_large (event : SSAEvent) (self : SSAFile) :
  insert (2 ^ 63) (SSAEvent_object event) self = (Raise OverflowError, self).
Proof. reflexivity. Qed.

(** ** The TMP line pattern, continued *)

Lemma string_mem_append c a b :
  string_mem c (a +:+ b) = string_mem c a || string_mem c b.
Proof.
  induction a as [|x a IH]; simpl; [done|]. by rewrite IH, orb_assoc.
Qed.

Lemma span_all p s :
  (forall c, string_mem c s = true -> p c = true) -> span p s = (s, "").
Proof.
  induction s as [|x s IH]; intros H; simpl; [done|].
  rewrite (H x) by (simpl; by rewrite Ascii.eqb_refl).
  rewrite IH; [done|]. intros c Hc. apply H. simpl. by rewrite Hc, orb_true_r.
Qed.

Lemma span_not_newline s :
  string_mem LF s = false -> span not_newline s = (s, "").
Proof.
  intros H. apply span_all. intros c Hc. unfold not_newline.
  destruct (Ascii.eqb c LF) eqn:E; [|done].
  apply Ascii.eqb_eq in E as ->. congruence.
Qed.

(** What [hours] hands on is a split of its input. *)
Lemma hours_split {A} (k : string -> string -> option A) s r :
  hours k s = Some r ->
  exists h s', k h s' = Some r /\ s = h +:+ s'.
Proof.
  unfold hours. intros H.
  destruct (two_digits s) as [[h s']|] eqn:E2; simpl in H.
  - destruct (k h s') as [r'|] eqn:Ek.
    + injection H as ->. exists h, s'. split; [done|].
      by apply two_digits_inv in E2 as (x & y & -> & -> & _).
    + destruct (one_digit s) as [[h1 s1]|] eqn:E1; simpl in H; [|done].
      exists h1, s1. split; [done|].
      by apply one_digit_inv in E1 as (x & -> & -> & _).
  - destruct (one_digit s) as [[h1 s1]|] eqn:E1; simpl in H; [|done].
    exists h1, s1. split; [done|].
    by apply one_digit_inv in E1 as (x & -> & -> & _).
Qed.

(** On a line without a line feed a match of [TMP_LINE] runs to the end
    of the line. *)
Lemma TMP_LINE_match_whole line mt :
  string_mem LF line = false ->
  TMP_LINE_match line = Some mt ->
  match_length mt = String.length line.
Proof.
  intros Hlf H. unfold TMP_LINE_match in H.
  apply hours_split in H as (h & s & Hs & Hline).
  unfold TMP_LINE_after_hours in Hs.
  destruct (minutes_seconds s) as [[[m sec] s1]|] eqn:E1; simpl in Hs; [|done].
  destruct (lit ":" s1) as [s2|] eqn:E2; simpl in Hs; [|done].
  apply minutes_seconds_inv in E1 as (a & b & c & d & _ & _ & -> & _).
  apply lit_inv in E2 as ->.
  assert (Hs2 : string_mem LF s2 = false).
  { rewrite Hline, string_mem_append in Hlf.
    apply orb_false_iff in Hlf as [_ Hlf]. cbn [string_mem] in Hlf.
    repeat (apply orb_false_iff in Hlf as [_ Hlf]). exact Hlf. }
  rewrite (span_not_newline s2 Hs2) in Hs.
  destruct (String.eqb s2 ""); [done|]. injection Hs as <-. simpl. lia.
Qed.

Lemma TMP_LINE_findall_skip line : forall skip,
  (String.length line <= skip)%nat -> TMP_LINE_findall_from skip line = [].
Proof.
  induction line as [|c line IH]; intros skip H; [done|].
  destruct skip as [|k]; simpl in H; [lia|].
  simpl. apply IH. lia.
Qed.

(** X10: on a line without a line feed, as [splitlines] gives them, a
    match of [TMP_LINE] at the head of the line is the only match
    [findall] returns: the test [len(TMP_LINE.findall(line)) == 1] of
    [guess_format] holds for every line that [TMP_LINE.match] accepts. *)
Theorem findall_after_match (line : string) (mt : tmp_match) :
  string_mem LF line = false ->
  TMP_LINE_match line = Some mt ->
  TMP_LINE_findall line = [(group1 mt, group2 mt)]
  /\ TmpFormat.is_tmp_line line = true.
Proof.
  intros Hlf H.
  assert (Hall : TMP_LINE_findall line = [(group1 mt, group2 mt)]).
  { unfold TMP_LINE_findall. destruct line as [|c line]; [done|].
    cbn [TMP_LINE_findall_from]. rewrite H. f_equal.
    apply TMP_LINE_findall_skip.
    rewrite (TMP_LINE_match_whole _ _ Hlf H). simpl. lia. }
  split; [done|]. unfold TmpFormat.is_tmp_line. by rewrite H, Hall.
Qed.

Lemma findall_after_match_sample :
  TMP_LINE_findall "00:00:01:Hello 00:00:02:again"
  = [("00:00:01", "Hello 00:00:02:again")]
  /\ TmpFormat.is_tmp_line "00:00:01:Hello 00:00:02:again" = true.
Proof.
  exact (findall_after_match "00:00:01:Hello 00:00:02:again"
           {| group1 := "00:00:01"; group2 := "Hello 00:00:02:again";
              match_length := 29 |} eq_refl eq_refl).
Defined.

(** The lines [splitlines] gives hold no line feed. *)
Lemma splitlines_from_no_LF n : forall s cur,
  (String.length s <= n)%nat ->
  string_mem LF cur = false ->
  Forall (fun line => string_mem LF line = false) (splitlines_from cur s).
Proof.
  assert (Hend : forall cur, string_mem LF cur = false ->
            Forall (fun line => string_mem LF line = false)
              (if String.eqb cur "" then [] else [cur]))
    by (intros cur H; destruct (String.eqb cur ""); repeat constructor; done).
  induction n as [|n IH]; intros s cur Hn Hcur.
  - destruct s; cbn [String.length] in Hn; [|lia]. by apply Hend.
  - destruct s as [|c t]; [by apply Hend|].
    cbn [String.length] in Hn. cbn [splitlines_from].
    destruct (Ascii.eqb c LF) eqn:Ec.
    { constructor; [done|]. apply IH; [lia|done]. }
    destruct (Ascii.eqb c CR) eqn:Er.
    + destruct t as [|c' t']; [by repeat constructor|].
      cbn [String.length] in Hn.
      destruct (Ascii.eqb c' LF); constructor; try done; apply IH;
        cbn [String.length]; try lia; done.
    + apply IH; [lia|]. rewrite string_mem_append, Hcur.
      cbn [string_mem orb]. rewrite orb_false_r, Ascii.eqb_sym. exact Ec.
Qed.

Lemma splitlines_no_LF text :
  Forall (fun line => string_mem LF line = false) (splitlines text).
Proof. by apply (splitlines_from_no_LF (String.length text)). Qed.

(** X11: [guess_format] answers "tmp" exactly when the text holds
    neither header sentinel and one of its lines matches [TMP_LINE]. *)
Theorem guess_format_tmp_iff (text : string) :
  TmpFormat.guess_format text = Some "tmp"
  <-> bytes_in "[Script Info]" text = false
      /\ bytes_in "[V4+ Styles]" text = false
      /\ exists line, In line (splitlines text)
                      /\ is_Some (TMP_LINE_match line).
Proof.
  unfold TmpFormat.guess_format.
  destruct (bytes_in "[Script Info]" text); [split; [done|by intros [? _]]|].
  destruct (bytes_in "[V4+ Styles]" text); [split; [done|by intros (_ & ? & _)]|].
  cbn [orb].
  destruct (existsb TmpFormat.is_tmp_line (splitlines text)) eqn:E.
  - split; [|done]. intros _. split_and!; [done..|].
    apply existsb_exists in E as (line & Hin & Hline). exists line.
    split; [done|]. unfold TmpFormat.is_tmp_line in Hline.
    destruct (TMP_LINE_match line); [by eexists|done].
  - split; [done|]. intros (_ & _ & line & Hin & [mt Hmt]). exfalso.
    assert (Hlf : string_mem LF line = false).
    { pose proof (splitlines_no_LF text) as Hall.
      rewrite Forall_forall in Hall. apply Hall. by apply list_elem_of_In. }
    assert (Hline : TmpFormat.is_tmp_line line = true).
    { unfold TmpFormat.is_tmp_line. rewrite Hmt.
      unfold TMP_LINE_findall. destruct line as [|c line]; [done|].
      cbn [TMP_LINE_findall_from]. rewrite Hmt.
      rewrite TMP_LINE_findall_skip; [done|].
      rewrite (TMP_LINE_match_whole _ _ Hlf Hmt). simpl. lia. }
    assert (existsb TmpFormat.is_tmp_line (splitlines text) = true)
      by (apply existsb_exists; by exists line).
    congruence.
Qed.

(** ** Timestamps written and read *)

Lemma format_02d_digits n :
  0 <= n < 100 ->
  exists a b, format_02d n = String a (String b "")
              /\ is_digit a = true /\ is_digit b = true
              /\ int_of_digits (String a (String b "")) = n.
Proof.
  intros Hn.
  assert (exists k, n = Z.of_nat k /\ (k < 100)%nat) as (k & -> & Hk)
    by (exists (Z.to_nat n); lia).
  clear Hn. do 100 (destruct k as [|k]; [by eexists _, _|]). lia.
Qed.

(** The text [ms_to_timestamp] returns: the two-digit fields of the
    clamped time, which is [ms] cut to whole seconds. *)
Lemma ms_to_timestamp_fields ms :
  exists h m s,
    0 <= h < 100 /\ 0 <= m < 60 /\ 0 <= s < 60
    /\ fst (TmpFormat.ms_to_timestamp ms)
       = format_02d h +:+ ":" +:+ format_02d m +:+ ":" +:+ format_02d s
    /\ s * 1000 + m * 60000 + h * 3600000
       = 1000 * (Z.min (Z.max ms 0) TmpFormat.MAX_REPRESENTABLE_TIME / 1000).
Proof.
  pose proof MAX_REPRESENTABLE_TIME_value as HM.
  destruct (Z.lt_ge_cases ms 0) as [Hneg | Hpos];
    [|destruct (Z.lt_ge_cases TmpFormat.MAX_REPRESENTABLE_TIME ms) as [Hbig | Hin]].
  - exists 0, 0, 0. rewrite (ms_to_timestamp_negative ms Hneg).
    replace (Z.min (Z.max ms 0) TmpFormat.MAX_REPRESENTABLE_TIME) with 0 by lia.
    split_and!; try lia; reflexivity.
  - exists 99, 59, 59. rewrite (ms_to_timestamp_overflow ms Hbig).
    replace (Z.min (Z.max ms 0) TmpFormat.MAX_REPRESENTABLE_TIME)
      with 359999000 by lia.
    split_and!; try lia; reflexivity.
  - exists (ms / 3600000), (ms mod 3600000 / 60000),
      (ms mod 3600000 mod 60000 / 1000).
    rewrite (ms_to_timestamp_in_range ms) by lia.
    replace (Z.min (Z.max ms 0) TmpFormat.MAX_REPRESENTABLE_TIME) with ms by lia.
    rewrite HM in Hin. cbn [fst].
    split_and!; try done; Z.div_mod_to_equations; lia.
Qed.

Lemma stamp_shape a b c d e f :
  String a (String b "") +:+ ":" +:+ String c (String d "") +:+ ":"
    +:+ String e (String f "")
  = String a (String b (String ":" (String c (String d (String ":"
      (String e (String f ""))))))).
Proof. reflexivity. Qed.

Lemma stamp_line_shape a b c d e f text :
  (String a (String b "") +:+ ":" +:+ String c (String d "") +:+ ":"
     +:+ String e (String f "")) +:+ ":" +:+ text
  = String a (String b (String ":" (String c (String d (String ":"
      (String e (String f (String ":" text)))))))).
Proof. reflexivity. Qed.

Lemma lit_same c r : lit c (String c r) = Some r.
Proof. unfold lit. by rewrite Ascii.eqb_refl. Qed.

(** X12: every timestamp the writer formats is one the reader accepts:
    for every [ms] and every text that is not empty and holds no line
    feed, the line [ms_to_timestamp(ms) + ":" + text] matches [TMP_LINE]
    with the timestamp as its first group and the text as its second. *)
Theorem written_timestamp_is_read (ms : Z) (text : string) :
  text <> "" ->
  string_mem LF text = false ->
  exists mt,
    TMP_LINE_match (fst (TmpFormat.ms_to_timestamp ms) +:+ ":" +:+ text) = Some mt
    /\ group1 mt = fst (TmpFormat.ms_to_timestamp ms)
    /\ group2 mt = text.
Proof.
  intros Hne Hlf.
  destruct (ms_to_timestamp_fields ms) as (h & m & s & Hh & Hm & Hs & -> & _).
  destruct (format_02d_digits h) as (a & b & -> & Ha & Hb & _); [lia|].
  destruct (format_02d_digits m) as (c & d & -> & Hc & Hd & _); [lia|].
  destruct (format_02d_digits s) as (e & f & -> & He & Hf & _); [lia|].
  rewrite stamp_line_shape.
  unfold TMP_LINE_match, hours.
  rewrite (two_digits_cons a b) by done. cbn [mbind option_bind].
  unfold TMP_LINE_after_hours at 1.
  rewrite (minutes_seconds_cons c d e f) by done. cbn [mbind option_bind].
  rewrite lit_same. cbn [mbind option_bind].
  rewrite (span_not_newline text Hlf).
  rewrite (proj2 (String.eqb_neq text "")) by done.
  eexists. split; [reflexivity|]. by cbn [group1 group2].
Qed.

Lemma written_timestamp_is_read_sample :
  exists mt,
    TMP_LINE_match (fst (TmpFormat.ms_to_timestamp 3723004) +:+ ":" +:+ "Hello")
    = Some mt
    /\ group1 mt = fst (TmpFormat.ms_to_timestamp 3723004)
    /\ group2 mt = "Hello".
Proof.
  apply (written_timestamp_is_read 3723004 "Hello"); [discriminate|reflexivity].
Defined.

(** X13: the reader gives back the time the writer formatted, clamped to
    the range of the format and cut to whole seconds: the clock pattern
    matches the text of [ms_to_timestamp(ms)], and [timestamp_to_ms] of
    its groups is 1000 * (min(max(ms, 0), MAX_REPRESENTABLE_TIME) // 1000). *)
Theorem timestamp_round_trip (ms : Z) :
  time_patterns.timestamp_to_ms
    <$> time_patterns.TIMESTAMP_SHORT_match (fst (TmpFormat.ms_to_timestamp ms))
  = Some (1000 * (Z.min (Z.max ms 0) TmpFormat.MAX_REPRESENTABLE_TIME / 1000)).
Proof.
  destruct (ms_to_timestamp_fields ms) as (h & m & s & Hh & Hm & Hs & -> & <-).
  destruct (format_02d_digits h) as (a & b & -> & Ha & Hb & <-); [lia|].
  destruct (format_02d_digits m) as (c & d & -> & Hc & Hd & <-); [lia|].
  destruct (format_02d_digits s) as (e & f & -> & He & Hf & <-); [lia|].
  rewrite stamp_shape.
  unfold time_patterns.TIMESTAMP_SHORT_match, hours.
  rewrite (two_digits_cons a b) by done. cbn [mbind option_bind].
  unfold time_patterns.TIMESTAMP_SHORT_after_hours.
  rewrite (minutes_seconds_cons c d e f) by done.
  reflexivity.
Qed.

(** ** Reading TMP, continued *)

Lemma read_lines_app a : forall b events,
  TmpFormat.read_lines events (a ++ b)
  = (evs <- TmpFormat.read_lines events a ;; TmpFormat.read_lines evs b).
Proof.
  induction a as [|line a IH]; intros b events; [done|].
  cbn [app TmpFormat.read_lines].
  destruct (TMP_LINE_match line) as [mt|]; [|apply IH].
  destruct (time_patterns.TIMESTAMP_SHORT_match (group1 mt)); [apply IH|done].
Qed.

Lemma read_lines_events fp : forall events,
  exists new,
    TmpFormat.read_lines events fp = Ok (events ++ new)
    /\ length new
       = length (List.filter
                   (fun line => match TMP_LINE_match line with
                                | Some _ => true
                                | None => false
                                end) fp)
    /\ Forall (fun e => fresh_event e /\ start e <= end_ e) new.
Proof.
  induction fp as [|line fp IH]; intros events.
  - exists []. by rewrite app_nil_r.
  - cbn [TmpFormat.read_lines List.filter].
    destruct (TMP_LINE_match line) as [mt|] eqn:E; [|apply IH].
    destruct (TMP_LINE_clock line mt E) as [groups ->].
    destruct (IH (events ++
      [new_SSAEvent (time_patterns.timestamp_to_ms groups)
         (time_patterns.timestamp_to_ms groups + 500
          + Z.of_nat (String.length line) * 67)
         (PBytes (TmpFormat.from_file_prepare_text (group2 mt)))]))
      as (new & -> & Hlen & Hall).
    eexists (_ :: new). rewrite <- app_assoc. split; [reflexivity|].
    cbn [length]. split; [by rewrite Hlen|].
    constructor; [|done]. split; [by repeat split|]. simpl. lia.
Qed.

(** What the repair pass leaves at an index. *)
Lemma repaired_event evs evs' i x :
  TmpFormat.repair_overlaps evs = Ok evs' ->
  evs' !! i = Some x ->
  exists a, evs !! i = Some a
    /\ ((evs !! S i = None /\ x = a)
        \/ exists b, evs !! S i = Some b
                     /\ x = set_end (Z.min (end_ a) (start b)) a).
Proof.
  intros Hrep Hx.
  destruct (repair_overlaps_ok evs) as (evs'' & Hrep' & Hlen & Hclamp & Hlast).
  rewrite Hrep in Hrep'. injection Hrep' as <-.
  destruct (lookup_lt_is_Some_2 evs i) as [a Ha];
    [apply lookup_lt_Some in Hx; lia|].
  exists a. split; [done|].
  destruct (evs !! S i) as [b|] eqn:Hb.
  - right. exists b. split; [done|].
    rewrite (Hclamp i a b Ha Hb) in Hx. by injection Hx.
  - left. split; [done|]. rewrite (Hlast i a Ha Hb) in Hx. by injection Hx.
Qed.

Lemma from_file_unfold fp subs :
  exists evs evs',
    TmpFormat.read_lines [] fp = Ok evs
    /\ TmpFormat.repair_overlaps evs = Ok evs'
    /\ length evs' = length evs
    /\ TmpFormat.from_file fp subs = (Ok tt, set_events evs' subs).
Proof.
  destruct (read_lines_total fp []) as [evs Hread].
  destruct (repair_overlaps_ok evs) as (evs' & Hrep & Hlen & _).
  exists evs, evs'. split_and!; [done..|].
  unfold TmpFormat.from_file. rewrite Hread. simpl. by rewrite Hrep.
Qed.

(** X14: a line that does not match [TMP_LINE] is skipped without a
    trace: the file read with the line and without it leave the same
    document. *)
Theorem from_file_skips_line (a b : list string) (bad : string) (subs : SSAFile) :
  TMP_LINE_match bad = None ->
  TmpFormat.from_file (a ++ bad :: b) subs = TmpFormat.from_file (a ++ b) subs.
Proof.
  intros H. unfold TmpFormat.from_file. rewrite !read_lines_app.
  cbn [TmpFormat.read_lines]. by rewrite H.
Qed.

Lemma from_file_skips_line_sample :
  TmpFormat.from_file (["0:00:01:One"] ++ "1" :: ["0:00:02:Two"]) sample_subs
  = TmpFormat.from_file (["0:00:01:One"] ++ ["0:00:02:Two"]) sample_subs.
Proof.
  apply (from_file_skips_line ["0:00:01:One"] ["0:00:02:Two"] "1" sample_subs).
  reflexivity.
Defined.

(** X15: [from_file] makes one event for every line that matches
    [TMP_LINE] and none for the others; the events the document had are
    gone, every new event has the style "Default", is no comment and has
    a bytes text, and styles, info, fps and format of the document are
    untouched. *)
Theorem from_file_events (fp : list string) (subs : SSAFile) :
  exists subs',
    TmpFormat.from_file fp subs = (Ok tt, subs')
    /\ length (events subs')
       = length (List.filter
                   (fun line => match TMP_LINE_match line with
                                | Some _ => true
                                | None => false
                                end) fp)
    /\ Forall fresh_event (events subs')
    /\ styles subs' = styles subs /\ info subs' = info subs
    /\ fps subs' = fps subs /\ format subs' = format subs.
Proof.
  destruct (from_file_unfold fp subs) as (evs & evs' & Hread & Hrep & Hlen & ->).
  destruct (read_lines_events fp []) as (new & Hnew & Hcount & Hall).
  rewrite Hread in Hnew. injection Hnew as ->.
  eexists. split; [reflexivity|]. cbn [events set_events styles info fps format].
  split_and!; try done; [by rewrite Hlen|].
  apply Forall_lookup. intros i x Hx.
  destruct (repaired_event _ _ i x Hrep Hx) as (a & Ha & Hcase).
  rewrite Forall_lookup in Hall. destruct (Hall i a Ha) as [Hfresh _].
  destruct Hcase as [[_ ->] | (b & _ & ->)]; [done|].
  exact Hfresh.
Qed.

(** X16: when the events read from a file start in order, every one of
    them starts no later than it ends: the repair pass then never cuts an
    end back to before the start. *)
Theorem from_file_sorted (fp : list string) (subs subs' : SSAFile) :
  TmpFormat.from_file fp subs = (Ok tt, subs') ->
  starts_sorted (events subs') ->
  Forall (fun e => start e <= end_ e) (events subs').
Proof.
  intros H Hsorted.
  destruct (from_file_unfold fp subs) as (evs & evs' & Hread & Hrep & Hlen & E).
  rewrite E in H. injection H as <-. cbn [events set_events] in *.
  destruct (read_lines_events fp []) as (new & Hnew & _ & Hall).
  rewrite Hread in Hnew. injection Hnew as ->.
  rewrite Forall_lookup in Hall.
  apply Forall_lookup. intros i x Hx.
  destruct (repaired_event _ _ i x Hrep Hx) as (a & Ha & Hcase).
  destruct (Hall i a Ha) as [_ Hle].
  destruct Hcase as [[_ ->] | (b & Hb & ->)]; [done|].
  destruct (lookup_lt_is_Some_2 evs' (S i)) as [y Hy];
    [rewrite Hlen; by apply lookup_lt_Some in Hb|].
  specialize (Hsorted i _ y Hx Hy).
  destruct (repaired_event _ _ (S i) y Hrep Hy) as (b' & Hb' & Hcase').
  rewrite Hb in Hb'. injection Hb' as <-.
  assert (start y = start b)
    by (destruct Hcase' as [[_ ->] | (c & _ & ->)]; done).
  destruct a. simpl in *. lia.
Qed.

Lemma from_file_sorted_sample :
  Forall (fun e => start e <= end_ e)
    [new_SSAEvent 1000 2000 (PBytes "One"); new_SSAEvent 2000 3237 (PBytes "Two")].
Proof.
  apply (from_file_sorted ["0:00:01:One"; "0:00:02:Two"] sample_subs
           (set_events [new_SSAEvent 1000 2000 (PBytes "One");
                        new_SSAEvent 2000 3237 (PBytes "Two")] sample_subs)).
  - reflexivity.
  - intros [|[|i]] e1 e2; simpl; try done. intros [= <-] [= <-]. simpl. lia.
Defined.

(** Out of order the end can fall before the start. *)
Example from_file_unsorted (subs : SSAFile) :
  TmpFormat.from_file ["0:00:05:Late"; "0:00:01:Early"] subs
  = (Ok tt,
     set_events [new_SSAEvent 5000 1000 (PBytes "Late");
                 new_SSAEvent 1000 2371 (PBytes "Early")] subs).
Proof. reflexivity. Qed.

Lemma re_sub_no_head (c0 : ascii) match_at repl :
  (forall s n, match_at s = Some n -> exists r, s = String c0 r) ->
  forall s, string_mem c0 s = false -> re_sub match_at repl s = s.
Proof.
  intros Hhead. unfold re_sub.
  induction s as [|c t IH]; intros Hmem; [done|].
  cbn [string_mem] in Hmem. apply orb_false_iff in Hmem as [Hc Ht].
  cbn [sub_from]. destruct (match_at (String c t)) as [n|] eqn:E.
  - destruct (Hhead _ _ E) as [r [= -> ->]]. by rewrite Ascii.eqb_refl in Hc.
  - by rewrite IH.
Qed.

Lemma match_literal_bar_head s n :
  match_literal "|" s = Some n -> exists r, s = String "|" r.
Proof.
  unfold match_literal. destruct s as [|c t]; [done|]. cbn [String.prefix].
  destruct (ascii_dec "|" c) as [<-|]; [by eexists|done].
Qed.

Lemma match_u_tag_head s n :
  match_u_tag s = Some n -> exists r, s = String "<" r.
Proof.
  unfold match_u_tag. destruct (lit "<" s) as [s1|] eqn:E; [|done].
  intros _. apply lit_inv in E. by eexists.
Qed.

Lemma match_html_tag_head s n :
  match_html_tag s = Some n -> exists r, s = String "<" r.
Proof.
  unfold match_html_tag. destruct (lit "<" s) as [s1|] eqn:E; [|done].
  intros _. apply lit_inv in E. by eexists.
Qed.

(** X17: a text with no bar and no opening angle bracket comes out of
    the reader's [prepare_text] as it went in. *)
Theorem prepare_text_plain (text : string) :
  string_mem "|" text = false ->
  string_mem "<" text = false ->
  TmpFormat.from_file_prepare_text text = text.
Proof.
  intros Hbar Hlt. unfold TmpFormat.from_file_prepare_text, replace.
  rewrite (re_sub_no_head "|" _ _ match_literal_bar_head) by done.
  rewrite (re_sub_no_head "<" _ _ match_u_tag_head) by done.
  by rewrite (re_sub_no_head "<" _ _ match_html_tag_head).
Qed.

Lemma prepare_text_plain_sample :
  TmpFormat.from_file_prepare_text "Hello, World > there" = "Hello, World > there".
Proof. apply prepare_text_plain; reflexivity. Defined.

(** ** Writing TMP, continued *)

Lemma collect_fragments_skip apply_styles fragments : forall body skip body' skip',
  TmpFormat.collect_fragments apply_styles body skip fragments = Ok (body', skip') ->
  skip' = skip || existsb (fun f => drawing (snd f)) fragments.
Proof.
  induction fragments as [|[fragment sty] fragments IH];
    intros body skip body' skip' H.
  - injection H as _ <-. by rewrite orb_false_r.
  - cbn [TmpFormat.collect_fragments] in H.
    destruct (TmpFormat.render_fragment apply_styles fragment sty) as [x|e];
      [|done].
    cbn [bind] in H. rewrite (IH _ _ _ _ H). cbn [existsb snd].
    destruct (drawing sty), skip; done.
Qed.

(** X18: the writer's [prepare_text] never returns a text with anything
    in it. When it returns, it returns the empty str, and some fragment
    of the text is a drawing; for a text without a drawing it raises. *)
Theorem prepare_text_returns_empty
    (parse_tags : pystr -> SSAStyle -> gmap string SSAStyle -> list (pystr * SSAStyle))
    (apply_styles : bool) (subs : SSAFile) (text : pystr) (style : SSAStyle)
    (prepared : pystr) :
  TmpFormat.to_file_prepare_text parse_tags apply_styles subs text style
  = Ok prepared ->
  prepared = PStr ""
  /\ Exists (fun f => drawing (snd f) = true) (parse_tags text style (styles subs)).
Proof.
  unfold TmpFormat.to_file_prepare_text, TmpFormat.prepare_fragments.
  destruct (TmpFormat.collect_fragments apply_styles [] false
              (parse_tags text style (styles subs))) as [[body skip]|e] eqn:E;
    [|done].
  cbn [bind]. apply collect_fragments_skip in E. cbn [orb] in E.
  destruct skip.
  - intros [= <-]. split; [done|].
    symmetry in E. apply existsb_exists in E as (f & Hin & Hf).
    apply Exists_exists. exists f. split; [|done]. by apply list_elem_of_In.
  - destruct (str_join_empty body); done.
Qed.

Lemma prepare_text_returns_empty_sample :
  PStr "" = PStr ""
  /\ Exists (fun f => drawing (snd f) = true)
       (sample_parse_tags (PBytes "A{\p1}B") DEFAULT_STYLE (styles sample_subs)).
Proof.
  apply (prepare_text_returns_empty sample_parse_tags true sample_subs
           (PBytes "A{\p1}B") DEFAULT_STYLE (PStr "")).
  reflexivity.
Defined.

Lemma no_visible_line (lines : list SSAEvent) :
  filter (fun line => is_comment line = false) lines = []
  <-> Forall (fun line => is_comment line = true) lines.
Proof.
  induction lines as [|line lines IH]; [by split; [constructor|]|].
  rewrite filter_cons. destruct (decide (is_comment line = false)) as [H|H].
  - split; [done|]. intros Hall. inversion Hall; subst. congruence.
  - rewrite IH. split.
    + intros Hall. constructor; [|done]. by destruct (is_comment line).
    + intros Hall. by inversion Hall.
Qed.

(** X19: [to_file] never writes a character. It returns only for a
    document without a visible event, one whose events are all comments;
    for any other document it raises, on its first visible event. *)
Theorem to_file_outcome
    (parse_tags : pystr -> SSAStyle -> gmap string SSAStyle -> list (pystr * SSAStyle))
    (apply_styles : bool) (subs : SSAFile) :
  TmpFormat.written (snd (TmpFormat.to_file parse_tags apply_styles subs)) = ""
  /\ (fst (TmpFormat.to_file parse_tags apply_styles subs) = Ok tt
      <-> Forall (fun line => is_comment line = true) (events subs)).
Proof.
  rewrite <- no_visible_line. unfold TmpFormat.to_file.
  destruct (filter _ (events subs)) as [|line rest]; [done|].
  cbn [TmpFormat.write_lines].
  destruct (TmpFormat.ms_to_timestamp (start line)) as [stamp warned].
  destruct (TmpFormat.to_file_prepare_text parse_tags apply_styles subs
              (text line) _) as [prepared|e]; cbn [bind py_add fst snd];
    (split; [done|split; done]).
Qed.

Lemma read_lines_own_line fp : forall events,
  exists new,
    TmpFormat.read_lines events fp = Ok (events ++ new)
    /\ Forall2 (fun e line =>
                 end_ e = start e + 500 + 67 * Z.of_nat (String.length line))
         new
         (List.filter
            (fun line => match TMP_LINE_match line with
                         | Some _ => true
                         | None => false
                         end) fp).
Proof.
  induction fp as [|line fp IH]; intros events.
  - exists []. rewrite app_nil_r. by split; [|constructor].
  - cbn [TmpFormat.read_lines List.filter].
    destruct (TMP_LINE_match line) as [mt|] eqn:E; [|apply IH].
    destruct (TMP_LINE_clock line mt E) as [groups ->].
    destruct (IH (events ++
      [new_SSAEvent (time_patterns.timestamp_to_ms groups)
         (time_patterns.timestamp_to_ms groups + 500
          + Z.of_nat (String.length line) * 67)
         (PBytes (TmpFormat.from_file_prepare_text (group2 mt)))]))
      as (new & -> & Hall).
    eexists (_ :: new). rewrite <- app_assoc. split; [reflexivity|].
    constructor; [|done]. simpl. lia.
Qed.

(** X20: the repair pass only ever shortens. [from_file] leaves one event
    for every line of the file that matches [TMP_LINE], in the order of
    the lines, and each event ends no later than the guess made for its
    own line: its start plus 500 ms plus 67 ms for every character of
    that line. *)
Theorem from_file_duration_bound (fp : list string) (subs : SSAFile) :
  exists subs',
    TmpFormat.from_file fp subs = (Ok tt, subs')
    /\ Forall2 (fun e line =>
                 end_ e <= start e + 500 + 67 * Z.of_nat (String.length line))
         (events subs')
         (List.filter
            (fun line => match TMP_LINE_match line with
                         | Some _ => true
                         | None => false
                         end) fp).
Proof.
  destruct (from_file_unfold fp subs) as (evs & evs' & Hread & Hrep & Hlen & ->).
  destruct (read_lines_own_line fp []) as (new & Hnew & Hall).
  rewrite Hread in Hnew. injection Hnew as ->.
  eexists. split; [reflexivity|]. cbn [events set_events].
  apply Forall2_same_length_lookup in Hall as [Hsame Hall].
  apply Forall2_same_length_lookup. split; [by rewrite Hlen|].
  intros i x line Hx Hline.
  destruct (repaired_event _ _ i x Hrep Hx) as (a & Ha & Hcase).
  specialize (Hall i a line Ha Hline). cbn beta in Hall.
  destruct Hcase as [[_ ->] | (b & _ & ->)]; [lia|].
  destruct a. simpl in *. lia.
Qed.

(** The two lines of a file, the first cut short by the second: each
    event against its own line. *)
Example from_file_duration_bound_two_lines (subs : SSAFile) :
  TmpFormat.from_file ["0:00:01:One"; "skipped"; "0:00:02:Two"] subs
  = (Ok tt,
     set_events [new_SSAEvent 1000 2000 (PBytes "One");
                 new_SSAEvent 2000 3237 (PBytes "Two")] subs)
  /\ 2000 <= 1000 + 500 + 67 * Z.of_nat (String.length "0:00:01:One")
  /\ 3237 <= 2000 + 500 + 67 * Z.of_nat (String.length "0:00:02:Two").
Proof. split; [reflexivity|]. simpl. lia. Qed.
